(** * Timesheet: the storage layer and the session controller

    A shallow embedding of [timesheet.app.py]: the six storage functions
    over the [timesheet] table, the date formatting and parsing they rely
    on, and [main] (start-up check, login form, the three views).

    Conventions of the embedding.
    - Text is [string] (a sequence of 8-bit characters); SQLite compares
      TEXT with the BINARY collation, which is [String.compare].
    - [hours_worked] has REAL affinity; the values are embedded as
      rationals [Q] and are stored and read back verbatim, so they are
      compared with Leibniz equality.
    - The database is the [timesheet] table as [create_table] declares it:
      its rows in rowid order plus the AUTOINCREMENT counter that SQLite
      keeps in [sqlite_sequence].  Rowids are unbounded integers here.
    - Python exceptions are the [Raise] results of [result]. *)

From Stdlib Require Import List String Ascii ZArith QArith Bool Lia.
From Stdlib Require Import Permutation Sorted.
Import ListNotations.

Local Open Scope Z_scope.

(* ================================================================== *)
(** * Results and exceptions *)

Inductive exn : Type :=
| ValueError
| StreamlitAPIException.

Inductive result (A : Type) : Type :=
| Ok (a : A)
| Raise (e : exn).

Arguments Ok {A} a.
Arguments Raise {A} e.

Definition bind {A B : Type} (r : result A) (k : A -> result B) : result B :=
  match r with
  | Ok a => k a
  | Raise e => Raise e
  end.

Notation "x <- r ;; k" := (bind r (fun x => k))
  (at level 61, r at next level, right associativity).

(* ================================================================== *)
(** * ORDER BY and DISTINCT over text keys *)

Section OrderBy.
Context {A : Type} (key : A -> string).

(** Insertion keeps an element in front of the later elements with an
    equal key, so [order_by] is stable. *)
Fixpoint insert_by (x : A) (l : list A) : list A :=
  match l with
  | [] => [x]
  | y :: t =>
      if String.leb (key x) (key y) then x :: y :: t
      else y :: insert_by x t
  end.

Definition order_by (l : list A) : list A :=
  fold_right insert_by [] l.

(** [a] may come before [b] in the output of [order_by]. *)
Definition key_le (a b : A) : Prop := String.leb (key a) (key b) = true.
End OrderBy.

Definition distinct (l : list string) : list string :=
  nodup string_dec l.

(* ================================================================== *)
(** * Calendar dates, [strftime] and [strptime] *)

Record date : Type := mkdate { year : Z; month : Z; day : Z }.

Definition MINYEAR : Z := 1.
Definition MAXYEAR : Z := 9999.

Definition is_leap (y : Z) : bool :=
  (y mod 4 =? 0) && (negb (y mod 100 =? 0) || (y mod 400 =? 0)).

Definition days_in_month (y m : Z) : Z :=
  match m with
  | 2 => if is_leap y then 29 else 28
  | 4 | 6 | 9 | 11 => 30
  | _ => 31
  end.

(** The values [datetime.date] accepts. *)
Definition valid_date (d : date) : bool :=
  (MINYEAR <=? year d) && (year d <=? MAXYEAR) &&
  (1 <=? month d) && (month d <=? 12) &&
  (1 <=? day d) && (day d <=? days_in_month (year d) (month d)).

Definition digit_char (n : Z) : ascii := ascii_of_N (Z.to_N (48 + n)).

Definition digit_val (c : ascii) : option Z :=
  let n := Z.of_N (N_of_ascii c) in
  if (48 <=? n) && (n <=? 57) then Some (n - 48) else None.

Definition pad2 (n : Z) : string :=
  String (digit_char (n / 10)) (String (digit_char (n mod 10)) EmptyString).

Definition pad4 (n : Z) : string :=
  String (digit_char (n / 1000))
    (String (digit_char (n / 100 mod 10)) (pad2 (n mod 100))).

(** The year as [%Y] prints it.  CPython hands the directive to the C
    library, and glibc prints the year in decimal without padding, so
    the years 1 to 999 come out with one to three digits. *)
Definition year_text (y : Z) : string :=
  if y <? 10 then String (digit_char y) EmptyString
  else if y <? 100 then pad2 y
  else if y <? 1000 then String (digit_char (y / 100)) (pad2 (y mod 100))
  else pad4 y.

(** [d.strftime("%Y-%m-%d")] *)
Definition strftime_Ymd (d : date) : string :=
  (year_text (year d) ++ "-" ++ pad2 (month d) ++ "-" ++ pad2 (day d))%string.

(** The ISO text [YYYY-MM-DD] of a date, with the year on four digits:
    what [strftime_Ymd] gives from the year 1000 on. *)
Definition iso_text (d : date) : string :=
  (pad4 (year d) ++ "-" ++ pad2 (month d) ++ "-" ++ pad2 (day d))%string.

Definition month_names : list string :=
  ["January"; "February"; "March"; "April"; "May"; "June"; "July";
   "August"; "September"; "October"; "November"; "December"]%string.

(** [d.strftime("%B")] *)
Definition strftime_B (d : date) : string :=
  nth (Z.to_nat (month d - 1)) month_names EmptyString.

(** ** The regular expression [_strptime] compiles for ["%Y-%m-%d"]

    [(?P<Y>\d\d\d\d)-(?P<m>1[0-2]|0[1-9]|[1-9])-(?P<d>3[0-1]|[1-2]\d|0[1-9]|[1-9]| [1-9])]

    Each matcher takes the continuation for the rest of the pattern; the
    alternatives of a group are tried in order and the next one is tried
    when the continuation fails, as the backtracking matcher does. *)

Definition digit_in (lo hi : Z) (c : ascii) : bool :=
  match digit_val c with
  | Some n => (lo <=? n) && (n <=? hi)
  | None => false
  end.

Definition dv (c : ascii) : Z :=
  match digit_val c with
  | Some n => n
  | None => 0
  end.

Definition orelse {A : Type} (a b : option A) : option A :=
  match a with
  | Some x => Some x
  | None => b
  end.

Definition lit {A : Type} (c : ascii) (k : string -> option A)
    (s : string) : option A :=
  match s with
  | String a r => if Ascii.eqb a c then k r else None
  | EmptyString => None
  end.

Definition two_chars {A : Type} (p1 p2 : ascii -> bool)
    (k : Z -> string -> option A) (s : string) : option A :=
  match s with
  | String a (String b r) =>
      if p1 a && p2 b then k (10 * dv a + dv b) r else None
  | _ => None
  end.

Definition one_char {A : Type} (p : ascii -> bool)
    (k : Z -> string -> option A) (s : string) : option A :=
  match s with
  | String a r => if p a then k (dv a) r else None
  | EmptyString => None
  end.

Definition group_Y {A : Type} (k : Z -> string -> option A)
    (s : string) : option A :=
  match s with
  | String a (String b (String c (String d r))) =>
      if digit_in 0 9 a && digit_in 0 9 b && digit_in 0 9 c && digit_in 0 9 d
      then k (1000 * dv a + 100 * dv b + 10 * dv c + dv d) r
      else None
  | _ => None
  end.

Definition group_m {A : Type} (k : Z -> string -> option A)
    (s : string) : option A :=
  orelse (two_chars (digit_in 1 1) (digit_in 0 2) k s)
    (orelse (two_chars (digit_in 0 0) (digit_in 1 9) k s)
       (one_char (digit_in 1 9) k s)).

Definition group_d {A : Type} (k : Z -> string -> option A)
    (s : string) : option A :=
  orelse (two_chars (digit_in 3 3) (digit_in 0 1) k s)
    (orelse (two_chars (digit_in 1 2) (digit_in 0 9) k s)
       (orelse (two_chars (digit_in 0 0) (digit_in 1 9) k s)
          (orelse (one_char (digit_in 1 9) k s)
             (two_chars (Ascii.eqb " ") (digit_in 1 9) k s)))).

(** [format_regex.match(data_string)]: the three groups and the text that
    is left after the match. *)
Definition format_regex_match (s : string) : option (Z * Z * Z * string) :=
  group_Y (fun y =>
    lit "-" (group_m (fun m =>
      lit "-" (group_d (fun d rest => Some (y, m, d, rest)))))) s.

(** [datetime.strptime(s, "%Y-%m-%d")]: no match, unconverted data and a
    date the calendar does not have all raise [ValueError]. *)
Definition strptime_Ymd (s : string) : result date :=
  match format_regex_match s with
  | None => Raise ValueError
  | Some (y, m, d, rest) =>
      if String.eqb rest EmptyString then
        if valid_date (mkdate y m d) then Ok (mkdate y m d)
        else Raise ValueError
      else Raise ValueError
  end.

(* ================================================================== *)
(** * The [timesheet] table *)

(** One row: [id INTEGER PRIMARY KEY AUTOINCREMENT], [work_date TEXT UNIQUE],
    [hours_worked REAL], [month_name TEXT]. *)
Record Row : Type := mkRow {
  id : Z;
  work_date : string;
  hours_worked : Q;
  month_name : string
}.

(** The rows in rowid order and the largest rowid ever used. *)
Record table : Type := mkTable {
  rows : list Row;
  sqlite_sequence : Z
}.

Definition empty_table : table := mkTable [] 0.

Definition max_rowid (l : list Row) : Z :=
  fold_right (fun r m => Z.max (id r) m) 0 l.

Fixpoint insert_row (r : Row) (l : list Row) : list Row :=
  match l with
  | [] => [r]
  | x :: t => if id r <? id x then r :: x :: t else x :: insert_row r t
  end.

(** [WHERE work_date = ?] *)
Definition has_date (d : string) (r : Row) : bool :=
  String.eqb (work_date r) d.

(** [(SELECT id FROM timesheet WHERE work_date = ?)] as a scalar
    subquery: the first row's [id], NULL when there is none. *)
Definition select_id (t : table) (d : string) : option Z :=
  option_map id (find (has_date d) (rows t)).

(** [INSERT OR REPLACE INTO timesheet (id, work_date, hours_worked,
    month_name) VALUES (?, ?, ?, ?)].  A NULL [id] takes the next
    AUTOINCREMENT value.  REPLACE deletes the rows that collide with the
    new one on the primary key or on the UNIQUE column, then inserts. *)
Definition insert_or_replace (t : table) (oid : option Z)
    (d : string) (h : Q) (m : string) : table :=
  let i := match oid with
           | Some i => i
           | None => Z.max (sqlite_sequence t) (max_rowid (rows t)) + 1
           end in
  let kept := filter (fun r => negb ((id r =? i) || has_date d r)) (rows t) in
  mkTable (insert_row (mkRow i d h m) kept) (Z.max (sqlite_sequence t) i).

(** [UPDATE timesheet SET hours_worked = ?, month_name = ? WHERE work_date = ?] *)
Definition update_where_date (t : table) (h : Q) (m : string)
    (d : string) : table :=
  mkTable
    (map (fun r => if has_date d r
                   then mkRow (id r) (work_date r) h m
                   else r) (rows t))
    (sqlite_sequence t).

(* ================================================================== *)
(** * DATABASE OPERATIONS *)

(** [CREATE TABLE IF NOT EXISTS]: a database without the table gets the
    empty one, an existing table is left as it is. *)
Definition create_table (db : option table) : table :=
  match db with
  | Some t => t
  | None => empty_table
  end.

Definition add_data (t : table) (work_date0 : string) (hours_worked0 : Q)
    (month_name0 : string) : table :=
  insert_or_replace t (select_id t work_date0)
    work_date0 hours_worked0 month_name0.

Definition get_months (t : table) : list string :=
  order_by (fun m => m) (distinct (map month_name (rows t))).

(** The columns [SELECT work_date, hours_worked, month_name] returns. *)
Definition entry_of (r : Row) : string * Q * string :=
  (work_date r, hours_worked r, month_name r).

Definition get_timesheet_by_month (t : table) (month0 : string)
    : list (string * Q * string) :=
  map entry_of
    (order_by work_date
       (filter (fun r => String.eqb (month_name r) month0) (rows t))).

Definition get_all_dates (t : table) : list string :=
  order_by (fun d => d) (distinct (map work_date (rows t))).

(** [row = c.fetchone(); return row[0] if row else 0.0] *)
Definition get_hours_for_date (t : table) (date_str : string) : Q :=
  match find (has_date date_str) (rows t) with
  | Some row => hours_worked row
  | None => 0%Q
  end.

Definition update_hours_for_date (t : table) (date_str : string)
    (new_hours : Q) : result table :=
  d <- strptime_Ymd date_str ;;
  let month_name0 := strftime_B d in
  Ok (update_where_date t new_hours month_name0 date_str).

(* ================================================================== *)
(** * Constraints and invariants of the table *)

(** What the schema enforces: [id] is the primary key (rows are kept in
    rowid order), [work_date] is UNIQUE, and no rowid exceeds the
    AUTOINCREMENT counter. *)
Record table_ok (t : table) : Prop := mkTableOk {
  ok_ids : StronglySorted Z.lt (map id (rows t));
  ok_dates : NoDup (map work_date (rows t));
  ok_seq : Forall (fun i => i <= sqlite_sequence t) (map id (rows t))
}.

(** The month name a [work_date] text stands for, as
    [update_hours_for_date] computes it; [None] when the text is not a
    date. *)
Definition month_of_work_date (s : string) : option string :=
  match strptime_Ymd s with
  | Ok d => Some (strftime_B d)
  | Raise _ => None
  end.

Definition month_consistent (t : table) : Prop :=
  Forall (fun r => month_of_work_date (work_date r) = Some (month_name r))
    (rows t).

Definition hours_nonneg (t : table) : Prop :=
  Forall (fun r => (0 <= hours_worked r)%Q) (rows t).

(** Upserts to one date, one after the other, each with its own hours
    and month name. *)
Definition repeat_upsert (t : table) (d : string)
    (us : list (Q * string)) : table :=
  fold_left (fun acc u => add_data acc d (fst u) (snd u)) us t.

(** The rows of a date. *)
Definition rows_of_date (t : table) (d : string) : list Row :=
  filter (has_date d) (rows t).

(* ================================================================== *)
(** * STREAMLIT APP *)

(** [st.session_state] once its three keys are set. *)
Record session_state : Type := mkSession {
  logged_in : bool;
  username : option string;
  has_edit_access : bool
}.

(** What the widgets return in one run of the script: the text typed, the
    buttons pressed, the index picked in each select box, the date picked
    and the numbers entered. *)
Record widgets : Type := mkWidgets {
  input_user : string;
  input_pass : string;
  login_pressed : bool;
  menu_index : nat;
  month_index : nat;
  input_date : date;
  hours_input : Q;
  log_pressed : bool;
  date_index : nat;
  new_hours_input : Q;
  update_pressed : bool
}.

(** What a run puts on the page, in order. *)
Inductive ui : Type :=
| page_config
| st_error (msg : string)
| st_title_login
| st_title_app (user : option string)
| st_text_input (label : string)
| st_button (label : string)
| st_sidebar_selectbox (options : list string)
| st_subheader (text : string)
| st_info (text : string)
| st_selectbox (label : string) (options : list string)
| st_dataframe (data : list (string * Q * string))
| st_download_button (file_name : string) (data : list (string * Q * string))
| st_date_input
| st_number_input (label : string) (min_value : Q)
| st_success_logged
| st_write_current (d : string) (h : Q)
| st_success_updated (d : string) (h : Q).

(** How a run ends: the script reaches its end, [st.stop()], [st.rerun()],
    or an exception escapes. *)
Inductive ending : Type :=
| Finished
| Stopped
| Rerun
| Crashed (e : exn).

Record run : Type := mkRun {
  page : list ui;
  session : option session_state;
  database : option table;
  how : ending
}.

(** Python truth value of [os.environ.get(...)] and of a select box
    result: [None] and the empty string are false. *)
Definition truthy (o : option string) : bool :=
  match o with
  | Some s => negb (String.eqb s EmptyString)
  | None => false
  end.

(** A select box returns the option at the index picked, [None] when the
    options are empty. *)
Definition selectbox (options : list string) (i : nat) : option string :=
  nth_error options i.

Definition view_timesheet (t : table) (w : widgets) : list ui :=
  let months := get_months t in
  if (List.length months =? 0)%nat then
    [st_info "No data available. Please log some hours first."]
  else
    let selected_month := selectbox months (month_index w) in
    st_selectbox "Select a month" months ::
    match selected_month with
    | Some m =>
        if truthy selected_month then
          let data := get_timesheet_by_month t m in
          match data with
          | [] => [st_info ("No entries found for the month: " ++ m)%string]
          | _ :: _ =>
              [st_dataframe data;
               st_download_button ("timesheet_" ++ m ++ ".csv")%string data]
          end
        else []
    | None => []
    end.

Definition log_hours (t : table) (w : widgets) : list ui * table :=
  let hours_worked0 := hours_input w in
  let month_name0 := strftime_B (input_date w) in
  let form := [st_subheader "Log Your Hours"; st_date_input;
               st_number_input "Enter Hours" 0%Q; st_button "Log Hours"] in
  if log_pressed w then
    (form ++ [st_success_logged],
     add_data t (strftime_Ymd (input_date w)) hours_worked0 month_name0)
  else (form, t).

Definition edit_hours (t : table) (w : widgets) : list ui * result table :=
  let all_dates := get_all_dates t in
  match all_dates with
  | [] =>
      ([st_subheader "Edit Hours for a Date";
        st_info "No data to edit yet. Please log some hours first."], Ok t)
  | _ :: _ =>
      let selected_date := selectbox all_dates (date_index w) in
      let head := [st_subheader "Edit Hours for a Date";
                   st_selectbox "Select a date to edit" all_dates] in
      match selected_date with
      | Some d =>
          if truthy selected_date then
            let current_hours := get_hours_for_date t d in
            (* st.number_input raises when [value] is below [min_value] *)
            if negb (Qle_bool 0 current_hours) then
              (head ++ [st_write_current d current_hours],
               Raise StreamlitAPIException)
            else
            let new_hours := new_hours_input w in
            let form := head ++ [st_write_current d current_hours;
                                 st_number_input "Enter new hours" 0%Q;
                                 st_button "Update Hours"] in
            if update_pressed w then
              match update_hours_for_date t d new_hours with
              | Ok t' => (form ++ [st_success_updated d new_hours], Ok t')
              | Raise e => (form, Raise e)
              end
            else (form, Ok t)
          else (head, Ok t)
      | None => (head, Ok t)
      end
  end.

Definition main (password_env : option string) (ss : option session_state)
    (w : widgets) (db : option table) : run :=
  (* STEP 1: the password from the environment *)
  if negb (truthy password_env) then
    mkRun [page_config;
           st_error "No password found in environment variable 'TIMESHEET_PASSWORD'."]
      ss db Stopped
  else
  (* STEP 2: session state for login *)
  let s := match ss with
           | Some s => s
           | None => mkSession false None false
           end in
  (* STEP 3: the login form *)
  if negb (logged_in s) then
    let form := [page_config; st_title_login; st_text_input "Username";
                 st_text_input "Password"; st_button "Login"] in
    if login_pressed w then
      if String.eqb (input_user w) "raisediversity"
         && String.eqb (input_pass w)
              (match password_env with Some p => p | None => EmptyString end)
      then mkRun form (Some (mkSession true (Some (input_user w)) true)) db Rerun
      else mkRun (form ++ [st_error "Invalid credentials. Please try again."])
             (Some s) db Stopped
    else mkRun form (Some s) db Stopped
  else
  (* STEP 4: the rest of the app *)
  let t := create_table db in
  let menu_options :=
    List.app ["View Timesheet"; "Log Hours"]%string
      (if has_edit_access s then ["Edit Hours"]%string else []) in
  let choice := selectbox menu_options (menu_index w) in
  let top := [page_config; st_title_app (username s);
              st_sidebar_selectbox menu_options] in
  match choice with
  | Some c =>
      if String.eqb c "View Timesheet" then
        mkRun (top ++ st_subheader "Timesheet" :: view_timesheet t w)
          (Some s) (Some t) Finished
      else if String.eqb c "Log Hours" then
        let '(out, t') := log_hours t w in
        mkRun (top ++ out) (Some s) (Some t') Finished
      else if String.eqb c "Edit Hours" then
        if negb (has_edit_access s) then
          mkRun (top ++ [st_error "You do not have permission to edit hours."])
            (Some s) (Some t) Stopped
        else
          match edit_hours t w with
          | (out, Ok t') => mkRun (top ++ out) (Some s) (Some t') Finished
          | (out, Raise e) => mkRun (top ++ out) (Some s) (Some t) (Crashed e)
          end
      else mkRun top (Some s) (Some t) Finished
  | None => mkRun top (Some s) (Some t) Finished
  end.

(** The states of the session controller, read off the session state:
    before the keys exist and while [logged_in] is false the session is
    logged out. *)
Inductive login_state : Type :=
| LoggedOut
| LoggedIn_Basic
| LoggedIn_Editor.

Definition state_of (ss : option session_state) : login_state :=
  match ss with
  | None => LoggedOut
  | Some s =>
      if logged_in s
      then if has_edit_access s then LoggedIn_Editor else LoggedIn_Basic
      else LoggedOut
  end.

(** A view is on the page when the run got past the login form. *)
Definition is_view (u : ui) : bool :=
  match u with
  | page_config | st_error _ => false
  | _ => true
  end.

(* ================================================================== *)
(** * Sample data for the scenarios *)

Definition jan5 : date := mkdate 2024 1 5.
Definition feb10 : date := mkdate 2024 2 10.
Definition dec31 : date := mkdate 2099 12 31.

(** Two logged days: 8 hours on 2024-01-05 and 3 hours on 2024-02-10. *)
Definition two_days : table :=
  add_data (add_data empty_table "2024-01-05" 8 "January")
    "2024-02-10" 3 "February".

(** The widgets of a run in which [user] and [pass] are typed into the
    login form and Login is pressed. *)
Definition login_with (user pass : string) : widgets :=
  mkWidgets user pass true 0 0 jan5 0 false 0 0 false.

(** The widgets of a logged-in run that picks "Log Hours", the date
    2024-01-05 and 8 hours, and presses the button. *)
Definition log_jan5 : widgets :=
  mkWidgets "" "" false 1 0 jan5 8 true 0 0 false.

(* ================================================================== *)
(** * Chronological order and ISO texts *)

(** Earlier, same day or later. *)
Definition date_compare (a b : date) : comparison :=
  match year a ?= year b with
  | Eq =>
      match month a ?= month b with
      | Eq => day a ?= day b
      | c => c
      end
  | c => c
  end.

(** Reading a date text back, whatever the number of digits of each
    field: the digits up to the first other character, twice followed by
    a hyphen.  It inverts [strftime_Ymd] on every valid date. *)
Fixpoint read_digits (acc : Z) (s : string) : Z * string :=
  match s with
  | String c r =>
      match digit_val c with
      | Some n => read_digits (10 * acc + n) r
      | None => (acc, s)
      end
  | EmptyString => (acc, s)
  end.

Definition read_date_text (s : string) : option date :=
  let '(y, r1) := read_digits 0 s in
  match r1 with
  | String c1 r2 =>
      let '(m, r3) := read_digits 0 r2 in
      match r3 with
      | String c2 r4 =>
          if Ascii.eqb c1 "-" && Ascii.eqb c2 "-"
          then Some (mkdate y m (fst (read_digits 0 r4)))
          else None
      | EmptyString => None
      end
  | EmptyString => None
  end.

(** Every [work_date] of the table is the text [strftime_Ymd] gives for
    a valid date, the form in which [main] writes it. *)
Definition iso_dates (t : table) : Prop :=
  Forall (fun r => exists d, valid_date d = true
                             /\ work_date r = strftime_Ymd d) (rows t).

(* ================================================================== *)
(** * The earlier version of the app ([timesheet.app.old.py]) *)

(** [INSERT INTO timesheet (work_date, hours_worked, month_name)
    VALUES (?,?,?)] on the earlier schema, where [work_date] is not
    UNIQUE: the row takes the next AUTOINCREMENT id and nothing is
    deleted. *)
Definition old_add_data (t : table) (work_date0 : string)
    (hours_worked0 : Q) (month_name0 : string) : table :=
  let i := Z.max (sqlite_sequence t) (max_rowid (rows t)) + 1 in
  mkTable (insert_row (mkRow i work_date0 hours_worked0 month_name0) (rows t))
    (Z.max (sqlite_sequence t) i).

(* ================================================================== *)
(** * The BINARY collation is a total order *)

Section Collation.

Lemma ascii_compare_refl (a : ascii) : Ascii.compare a a = Eq.
Proof. unfold Ascii.compare. apply N.compare_refl. Qed.

Lemma ascii_compare_lt_trans (a b c : ascii) :
  Ascii.compare a b = Lt -> Ascii.compare b c = Lt -> Ascii.compare a c = Lt.
Proof.
  unfold Ascii.compare. rewrite !N.compare_lt_iff. apply N.lt_trans.
Qed.

Lemma string_compare_refl (s : string) : String.compare s s = Eq.
Proof.
  induction s as [|a s IH]; simpl; [reflexivity|].
  now rewrite ascii_compare_refl.
Qed.

Lemma string_compare_lt_trans (s1 s2 s3 : string) :
  String.compare s1 s2 = Lt -> String.compare s2 s3 = Lt ->
  String.compare s1 s3 = Lt.
Proof.
  revert s2 s3.
  induction s1 as [|a s1 IH]; intros [|b s2] [|c s3]; simpl;
    try congruence.
  destruct (Ascii.compare a b) eqn:Hab; try discriminate;
    destruct (Ascii.compare b c) eqn:Hbc; try discriminate; intros H12 H23.
  - apply Ascii.compare_eq_iff in Hab, Hbc. subst.
    rewrite ascii_compare_refl. eauto.
  - apply Ascii.compare_eq_iff in Hab. subst. now rewrite Hbc.
  - apply Ascii.compare_eq_iff in Hbc. subst. now rewrite Hab.
  - now rewrite (ascii_compare_lt_trans a b c).
Qed.

Lemma leb_refl (s : string) : String.leb s s = true.
Proof. unfold String.leb. now rewrite string_compare_refl. Qed.

Lemma leb_trans (s1 s2 s3 : string) :
  String.leb s1 s2 = true -> String.leb s2 s3 = true ->
  String.leb s1 s3 = true.
Proof.
  unfold String.leb.
  destruct (String.compare s1 s2) eqn:H12; try discriminate;
    destruct (String.compare s2 s3) eqn:H23; try discriminate; intros _ _.
  - apply String.compare_eq_iff in H12. subst. now rewrite H23.
  - apply String.compare_eq_iff in H12. subst. now rewrite H23.
  - apply String.compare_eq_iff in H23. subst. now rewrite H12.
  - now rewrite (string_compare_lt_trans s1 s2 s3).
Qed.

Lemma leb_false_flip (s1 s2 : string) :
  String.leb s1 s2 = false -> String.leb s2 s1 = true.
Proof.
  intros H. destruct (String.leb_total s1 s2) as [E|E]; congruence.
Qed.

(** Strictly smaller: smaller or equal, and different. *)
Lemma ltb_leb_neq (s1 s2 : string) :
  String.leb s1 s2 = true -> s1 <> s2 -> String.ltb s1 s2 = true.
Proof.
  unfold String.leb, String.ltb.
  destruct (String.compare s1 s2) eqn:H; try discriminate; auto.
  apply String.compare_eq_iff in H. congruence.
Qed.

End Collation.

(* ================================================================== *)
(** * [order_by] sorts, keeps the elements, and is idle on sorted input *)

Section OrderByFacts.
Context {A : Type} (key : A -> string).

Lemma insert_by_perm (x : A) (l : list A) :
  Permutation (insert_by key x l) (x :: l).
Proof.
  induction l as [|y t IH]; simpl; [reflexivity|].
  destruct (String.leb (key x) (key y)); [reflexivity|].
  rewrite IH. apply perm_swap.
Qed.

Lemma order_by_perm (l : list A) : Permutation (order_by key l) l.
Proof.
  induction l as [|x t IH]; simpl; [constructor|].
  rewrite insert_by_perm. now constructor.
Qed.

Lemma order_by_In (l : list A) (x : A) : In x (order_by key l) <-> In x l.
Proof.
  split; apply Permutation_in;
    [apply order_by_perm | symmetry; apply order_by_perm].
Qed.

Lemma insert_by_sorted (x : A) (l : list A) :
  StronglySorted (key_le key) l -> StronglySorted (key_le key) (insert_by key x l).
Proof.
  induction 1 as [|y t Hs IH Hy]; simpl.
  - repeat constructor.
  - destruct (String.leb (key x) (key y)) eqn:E.
    + constructor; [now constructor|].
      constructor; [exact E|].
      eapply Forall_impl; [|exact Hy].
      intros z Hz. exact (leb_trans _ _ _ E Hz).
    + constructor; [exact IH|].
      apply (Permutation_Forall (Permutation_sym (insert_by_perm x t))).
      constructor; [|exact Hy]. now apply leb_false_flip.
Qed.

Lemma order_by_sorted (l : list A) : StronglySorted (key_le key) (order_by key l).
Proof.
  induction l as [|x t IH]; simpl; [constructor|].
  now apply insert_by_sorted.
Qed.

Lemma order_by_nil_iff (l : list A) : order_by key l = [] <-> l = [].
Proof.
  split; intros H; [|now subst].
  apply Permutation_nil. rewrite <- H. apply order_by_perm.
Qed.

End OrderByFacts.

Section DistinctFacts.

Lemma distinct_In (l : list string) (x : string) :
  In x (distinct l) <-> In x l.
Proof. apply nodup_In. Qed.

Lemma distinct_NoDup (l : list string) : NoDup (distinct l).
Proof. apply NoDup_nodup. Qed.

(** A sorted list without repetition is strictly increasing. *)
Lemma sorted_NoDup_strict (l : list string) :
  StronglySorted (key_le (fun s => s)) l -> NoDup l ->
  StronglySorted (fun a b => String.ltb a b = true) l.
Proof.
  induction 1 as [|x t Hs IH Hx]; intros Hnd; [constructor|].
  inversion Hnd as [|? ? Hnotin Hnd']; subst.
  constructor; [now apply IH|].
  rewrite Forall_forall in *. intros y Hy.
  apply ltb_leb_neq; [now apply Hx|].
  intros ->. contradiction.
Qed.

Lemma ordered_distinct_strict (l : list string) :
  StronglySorted (fun a b => String.ltb a b = true)
    (order_by (fun s => s) (distinct l)).
Proof.
  apply sorted_NoDup_strict; [apply order_by_sorted|].
  eapply Permutation_NoDup; [symmetry; apply order_by_perm|].
  apply distinct_NoDup.
Qed.

Lemma ordered_distinct_In (l : list string) (x : string) :
  In x (order_by (fun s => s) (distinct l)) <-> In x l.
Proof. now rewrite order_by_In, distinct_In. Qed.

Lemma ordered_distinct_NoDup (l : list string) :
  NoDup (order_by (fun s => s) (distinct l)).
Proof.
  eapply Permutation_NoDup; [symmetry; apply order_by_perm|].
  apply distinct_NoDup.
Qed.

End DistinctFacts.

(* ================================================================== *)
(** * [strptime] reads back what [strftime] writes *)

Section ParseFormat.

(** A property checked on each of the [n] integers from [lo] on holds on
    that whole range. *)
Lemma Z_range_cases (P : Z -> Prop) (lo : Z) (n : nat) :
  Forall P (map (fun i => lo + Z.of_nat i) (List.seq 0 n)) ->
  forall z, lo <= z < lo + Z.of_nat n -> P z.
Proof.
  intros H z Hz. rewrite Forall_forall in H. apply H.
  apply in_map_iff. exists (Z.to_nat (z - lo)). split; [lia|].
  apply in_seq. lia.
Qed.

Lemma digit_val_char (n : Z) :
  0 <= n <= 9 -> digit_val (digit_char n) = Some n.
Proof.
  intros Hn.
  apply (Z_range_cases (fun z => digit_val (digit_char z) = Some z) 0 10);
    [|lia].
  repeat (constructor; [reflexivity|]). constructor.
Qed.

Lemma dv_char (n : Z) : 0 <= n <= 9 -> dv (digit_char n) = n.
Proof. intros H. unfold dv. now rewrite digit_val_char. Qed.

Lemma digit_in_char (lo hi n : Z) :
  0 <= n <= 9 -> digit_in lo hi (digit_char n) = (lo <=? n) && (n <=? hi).
Proof. intros H. unfold digit_in. now rewrite digit_val_char. Qed.

Lemma digit_in_char_true (lo hi n : Z) :
  0 <= n <= 9 -> lo <= n <= hi -> digit_in lo hi (digit_char n) = true.
Proof.
  intros H0 H. rewrite digit_in_char by exact H0.
  apply andb_true_intro. split; apply Z.leb_le; lia.
Qed.

Lemma group_Y_pad4 {A : Type} (k : Z -> string -> option A)
    (y : Z) (r : string) :
  0 <= y <= 9999 -> group_Y k (pad4 y ++ r)%string = k y r.
Proof.
  intros Hy. unfold pad4, pad2. cbn [String.append]. unfold group_Y.
  assert (H1 : 0 <= y / 1000 <= 9)
    by (Z.to_euclidean_division_equations; lia).
  assert (H2 : 0 <= y / 100 mod 10 <= 9)
    by (Z.to_euclidean_division_equations; lia).
  assert (H3 : 0 <= y mod 100 / 10 <= 9)
    by (Z.to_euclidean_division_equations; lia).
  assert (H4 : 0 <= y mod 100 mod 10 <= 9)
    by (Z.to_euclidean_division_equations; lia).
  rewrite !digit_in_char_true, !dv_char by assumption.
  cbn [andb]. f_equal.
  clear - Hy. Z.to_euclidean_division_equations; lia.
Qed.

Lemma group_m_pad2 {A : Type} (k : Z -> string -> option A)
    (m : Z) (r : string) (v : A) :
  1 <= m <= 12 -> k m r = Some v ->
  group_m k (pad2 m ++ r)%string = Some v.
Proof.
  intros Hm. revert m Hm k r v.
  assert (H : forall m, 1 <= m < 1 + Z.of_nat 12 ->
              forall (k : Z -> string -> option A) r v,
                k m r = Some v -> group_m k (pad2 m ++ r)%string = Some v).
  { apply (Z_range_cases
             (fun m => forall (k : Z -> string -> option A) r v,
                k m r = Some v -> group_m k (pad2 m ++ r)%string = Some v)).
    repeat (constructor;
            [intros k r v Hk; cbv - [orelse] in *; now rewrite Hk|]).
    constructor. }
  intros m Hm. apply H. lia.
Qed.

Lemma group_d_pad2 {A : Type} (k : Z -> string -> option A)
    (d : Z) (r : string) (v : A) :
  1 <= d <= 31 -> k d r = Some v ->
  group_d k (pad2 d ++ r)%string = Some v.
Proof.
  intros Hd. revert d Hd k r v.
  assert (H : forall d, 1 <= d < 1 + Z.of_nat 31 ->
              forall (k : Z -> string -> option A) r v,
                k d r = Some v -> group_d k (pad2 d ++ r)%string = Some v).
  { apply (Z_range_cases
             (fun d => forall (k : Z -> string -> option A) r v,
                k d r = Some v -> group_d k (pad2 d ++ r)%string = Some v)).
    repeat (constructor;
            [intros k r v Hk; cbv - [orelse] in *; now rewrite Hk|]).
    constructor. }
  intros d Hd. apply H. lia.
Qed.

Lemma valid_date_bounds (d : date) :
  valid_date d = true ->
  1 <= year d <= 9999 /\ 1 <= month d <= 12 /\ 1 <= day d <= 31.
Proof.
  unfold valid_date, MINYEAR, MAXYEAR, days_in_month.
  rewrite !andb_true_iff, !Z.leb_le.
  intros [[[[[? ?] ?] ?] ?] Hd].
  repeat split; try assumption.
  destruct (month d) as [|p|p]; try lia;
    repeat (destruct p as [p|p|]; try lia);
    destruct (is_leap (year d)); lia.
Qed.

(** Parsing the ISO text of a date gives the date back. *)
Lemma strptime_iso_text (d : date) :
  valid_date d = true -> strptime_Ymd (iso_text d) = Ok d.
Proof.
  intros Hv. destruct (valid_date_bounds d Hv) as (Hy & Hm & Hd).
  unfold strptime_Ymd, iso_text, format_regex_match.
  rewrite group_Y_pad4 by lia. cbn [String.append lit].
  rewrite Ascii.eqb_refl.
  erewrite group_m_pad2; [| exact Hm |].
  2:{ cbn [String.append lit]. rewrite Ascii.eqb_refl.
      apply group_d_pad2; [exact Hd | reflexivity]. }
  cbn [String.eqb]. destruct d as [y m dd]. cbn [year month day] in *.
  now rewrite Hv.
Qed.

(** From the year 1000 on [strftime] writes the ISO text. *)
Lemma strftime_iso_text (d : date) :
  1000 <= year d -> strftime_Ymd d = iso_text d.
Proof.
  intros Hy. unfold strftime_Ymd, iso_text, year_text.
  destruct (year d <? 10) eqn:E1; [apply Z.ltb_lt in E1; lia|].
  destruct (year d <? 100) eqn:E2; [apply Z.ltb_lt in E2; lia|].
  destruct (year d <? 1000) eqn:E3; [apply Z.ltb_lt in E3; lia|].
  reflexivity.
Qed.

Lemma strptime_strftime (d : date) :
  valid_date d = true -> 1000 <= year d ->
  strptime_Ymd (strftime_Ymd d) = Ok d.
Proof.
  intros Hv Hy. rewrite strftime_iso_text by exact Hy.
  now apply strptime_iso_text.
Qed.

Lemma month_of_strftime (d : date) :
  valid_date d = true -> 1000 <= year d ->
  month_of_work_date (strftime_Ymd d) = Some (strftime_B d).
Proof.
  intros Hv Hy. unfold month_of_work_date. now rewrite strptime_strftime.
Qed.

Lemma digit_in_hyphen (lo hi : Z) : digit_in lo hi "-" = false.
Proof. reflexivity. Qed.

(** Below the year 1000 the text [strftime] writes has fewer than four
    year digits, and [strptime] does not take it. *)
Lemma strptime_strftime_short_year (d : date) :
  valid_date d = true -> year d < 1000 ->
  strptime_Ymd (strftime_Ymd d) = Raise ValueError.
Proof.
  intros Hv Hlt. destruct (valid_date_bounds d Hv) as (Hy & Hm & Hd).
  assert (Hm1 : 0 <= month d / 10 <= 9)
    by (Z.to_euclidean_division_equations; lia).
  assert (Hm2 : 0 <= month d mod 10 <= 9)
    by (Z.to_euclidean_division_equations; lia).
  unfold strptime_Ymd, strftime_Ymd, year_text, format_regex_match.
  destruct (year d <? 10) eqn:E1.
  { unfold pad2. cbn [String.append group_Y].
    rewrite digit_in_hyphen, andb_false_r. reflexivity. }
  destruct (year d <? 100) eqn:E2.
  { unfold pad2. cbn [String.append group_Y].
    rewrite digit_in_hyphen, andb_false_r. reflexivity. }
  destruct (year d <? 1000) eqn:E3; [|apply Z.ltb_ge in E3; lia].
  unfold pad2. cbn [String.append group_Y].
  now rewrite digit_in_hyphen, andb_false_r.
Qed.

Lemma read_digits_digit (acc n : Z) (r : string) :
  0 <= n <= 9 ->
  read_digits acc (String (digit_char n) r) = read_digits (10 * acc + n) r.
Proof. intros Hn. cbn [read_digits]. now rewrite digit_val_char. Qed.

Lemma read_digits_hyphen (acc : Z) (r : string) :
  read_digits acc (String "-" r) = (acc, String "-" r).
Proof. reflexivity. Qed.

Lemma read_digits_pad2 (acc n : Z) (r : string) :
  0 <= n <= 99 ->
  read_digits acc (pad2 n ++ r)%string
  = read_digits (100 * acc + n) r.
Proof.
  intros Hn. unfold pad2. cbn [String.append].
  rewrite !read_digits_digit by (Z.to_euclidean_division_equations; lia).
  f_equal. Z.to_euclidean_division_equations; lia.
Qed.

Lemma read_digits_year (y : Z) (r : string) :
  1 <= y <= 9999 ->
  read_digits 0 (year_text y ++ r)%string = read_digits y r.
Proof.
  intros Hy. unfold year_text.
  destruct (y <? 10) eqn:E1.
  { apply Z.ltb_lt in E1. cbn [String.append].
    rewrite read_digits_digit by lia. f_equal. }
  apply Z.ltb_ge in E1. destruct (y <? 100) eqn:E2.
  { apply Z.ltb_lt in E2. rewrite read_digits_pad2 by lia. f_equal. }
  apply Z.ltb_ge in E2. destruct (y <? 1000) eqn:E3.
  { apply Z.ltb_lt in E3. cbn [String.append].
    rewrite read_digits_digit by (Z.to_euclidean_division_equations; lia).
    rewrite read_digits_pad2 by (Z.to_euclidean_division_equations; lia).
    f_equal. Z.to_euclidean_division_equations; lia. }
  apply Z.ltb_ge in E3. unfold pad4. cbn [String.append].
  rewrite !read_digits_digit by (Z.to_euclidean_division_equations; lia).
  rewrite read_digits_pad2 by (Z.to_euclidean_division_equations; lia).
  f_equal. Z.to_euclidean_division_equations; lia.
Qed.

(** The text [strftime] writes for a valid date determines the date. *)
Lemma read_strftime (d : date) :
  valid_date d = true -> read_date_text (strftime_Ymd d) = Some d.
Proof.
  intros Hv. destruct (valid_date_bounds d Hv) as (Hy & Hm & Hd).
  unfold read_date_text, strftime_Ymd.
  rewrite read_digits_year by lia. cbn [String.append].
  rewrite read_digits_hyphen.
  rewrite read_digits_pad2 by lia. rewrite read_digits_hyphen.
  cbn [Ascii.eqb Bool.eqb andb].
  change (pad2 (day d)) with (pad2 (day d) ++ EmptyString)%string.
  rewrite read_digits_pad2 by lia. cbn [read_digits fst].
  destruct d as [y m dd]. cbn [year month day]. do 2 f_equal; lia.
Qed.

End ParseFormat.

(* ================================================================== *)
(** * Rows, lookups and the REPLACE step *)

Section TableFacts.

Lemma has_date_true (d : string) (r : Row) :
  has_date d r = true <-> work_date r = d.
Proof. unfold has_date. apply String.eqb_eq. Qed.

Lemma has_date_false (d : string) (r : Row) :
  has_date d r = false <-> work_date r <> d.
Proof. unfold has_date. apply String.eqb_neq. Qed.

Lemma insert_row_perm (x : Row) (l : list Row) :
  Permutation (insert_row x l) (x :: l).
Proof.
  induction l as [|y t IH]; simpl; [reflexivity|].
  destruct (id x <? id y); [reflexivity|].
  rewrite IH. apply perm_swap.
Qed.

Lemma insert_row_In (x r : Row) (l : list Row) :
  In r (insert_row x l) <-> r = x \/ In r l.
Proof.
  split; intros H.
  - apply (Permutation_in _ (insert_row_perm x l)) in H.
    destruct H; [left; congruence | now right].
  - apply (Permutation_in _ (Permutation_sym (insert_row_perm x l))).
    destruct H; [left; congruence | now right].
Qed.

Lemma find_absent {A : Type} (f : A -> bool) (l : list A) :
  (forall x, In x l -> f x = false) -> find f l = None.
Proof.
  induction l as [|y t IH]; intros H; simpl; [reflexivity|].
  rewrite (H y) by now left. apply IH. intros x Hx. apply H. now right.
Qed.

Lemma filter_absent {A : Type} (f : A -> bool) (l : list A) :
  (forall x, In x l -> f x = false) -> filter f l = [].
Proof.
  induction l as [|y t IH]; intros H; simpl; [reflexivity|].
  rewrite (H y) by now left. apply IH. intros x Hx. apply H. now right.
Qed.

(** A row put into a list that has no row for its date is the one the
    lookup by date finds, and the only one the date selects. *)
Lemma find_insert_row (d : string) (x : Row) (l : list Row) :
  has_date d x = true -> (forall r, In r l -> has_date d r = false) ->
  find (has_date d) (insert_row x l) = Some x.
Proof.
  intros Hx. induction l as [|y t IH]; intros Hl; simpl.
  - now rewrite Hx.
  - destruct (id x <? id y); simpl.
    + now rewrite Hx.
    + rewrite (Hl y) by now left. apply IH.
      intros r Hr. apply Hl. now right.
Qed.

Lemma filter_insert_row (d : string) (x : Row) (l : list Row) :
  has_date d x = true -> (forall r, In r l -> has_date d r = false) ->
  filter (has_date d) (insert_row x l) = [x].
Proof.
  intros Hx. induction l as [|y t IH]; intros Hl; simpl.
  - now rewrite Hx.
  - destruct (id x <? id y); simpl.
    + rewrite Hx. rewrite (Hl y) by now left.
      f_equal. apply filter_absent. intros r Hr. apply Hl. now right.
    + rewrite (Hl y) by now left. apply IH.
      intros r Hr. apply Hl. now right.
Qed.

(** The rows REPLACE leaves in place collide with the new row neither on
    the key nor on the date. *)
Lemma kept_spec (i : Z) (d : string) (l : list Row) (r : Row) :
  In r (filter (fun r => negb ((id r =? i) || has_date d r)) l) <->
  In r l /\ id r <> i /\ work_date r <> d.
Proof.
  rewrite filter_In, negb_true_iff, orb_false_iff, Z.eqb_neq, has_date_false.
  tauto.
Qed.

(** The id the new row of an upsert gets. *)
Lemma add_data_rows (t : table) (d : string) (h : Q) (m : string) :
  exists i,
    rows (add_data t d h m)
    = insert_row (mkRow i d h m)
        (filter (fun r => negb ((id r =? i) || has_date d r)) (rows t))
    /\ sqlite_sequence (add_data t d h m) = Z.max (sqlite_sequence t) i
    /\ match select_id t d with
       | Some j => i = j
       | None => i = Z.max (sqlite_sequence t) (max_rowid (rows t)) + 1
       end.
Proof.
  unfold add_data, insert_or_replace.
  destruct (select_id t d) as [j|]; eexists; repeat split.
Qed.

Lemma add_data_find (t : table) (d : string) (h : Q) (m : string) :
  exists i,
    find (has_date d) (rows (add_data t d h m)) = Some (mkRow i d h m)
    /\ rows_of_date (add_data t d h m) d = [mkRow i d h m]
    /\ (forall j, select_id t d = Some j -> i = j).
Proof.
  destruct (add_data_rows t d h m) as (i & Hrows & _ & Hi).
  exists i. unfold rows_of_date. rewrite Hrows.
  assert (Hnew : has_date d (mkRow i d h m) = true)
    by now apply has_date_true.
  assert (Hkept : forall r,
             In r (filter (fun r => negb ((id r =? i) || has_date d r))
                     (rows t)) -> has_date d r = false).
  { intros r Hr. apply kept_spec in Hr. now apply has_date_false. }
  repeat split.
  - now apply find_insert_row.
  - now apply filter_insert_row.
  - intros j Hj. now rewrite Hj in Hi.
Qed.

Lemma add_data_In (t : table) (d : string) (h : Q) (m : string) (r : Row) :
  In r (rows (add_data t d h m)) ->
  (work_date r = d /\ hours_worked r = h /\ month_name r = m) \/
  (In r (rows t) /\ work_date r <> d).
Proof.
  destruct (add_data_rows t d h m) as (i & Hrows & _ & _).
  rewrite Hrows, insert_row_In, kept_spec.
  intros [-> | (Hin & _ & Hd)]; [left; now repeat split | now right].
Qed.

Lemma get_hours_add_data (t : table) (d : string) (h : Q) (m : string) :
  get_hours_for_date (add_data t d h m) d = h.
Proof.
  unfold get_hours_for_date.
  destruct (add_data_find t d h m) as (i & Hf & _). now rewrite Hf.
Qed.

Lemma select_id_add_data (t : table) (d : string) (h : Q) (m : string)
    (i : Z) :
  select_id t d = Some i -> select_id (add_data t d h m) d = Some i.
Proof.
  intros Hi. destruct (add_data_find t d h m) as (j & Hf & _ & Hj).
  unfold select_id at 1. rewrite Hf. simpl. now rewrite (Hj i Hi).
Qed.

(** Under the UNIQUE constraint a stored row is the one its date finds. *)
Lemma find_unique (l : list Row) (r : Row) :
  NoDup (map work_date l) -> In r l ->
  find (has_date (work_date r)) l = Some r.
Proof.
  induction l as [|y t IH]; intros Hnd Hin; [contradiction|].
  simpl in Hnd. inversion Hnd as [|? ? Hnotin Hnd']; subst.
  simpl. destruct Hin as [-> | Hin].
  - now rewrite (proj2 (has_date_true _ _) eq_refl).
  - destruct (has_date (work_date r) y) eqn:E.
    + apply has_date_true in E. exfalso. apply Hnotin.
      rewrite E. now apply in_map.
    + now apply IH.
Qed.

End TableFacts.

(* ================================================================== *)
(** * The schema constraints hold in every table the app can build *)

Section Constraints.

Lemma filter_ids_sorted (keep : Row -> bool) (l : list Row) :
  StronglySorted Z.lt (map id l) ->
  StronglySorted Z.lt (map id (filter keep l)).
Proof.
  induction l as [|x t IH]; simpl; intros H; [constructor|].
  inversion H as [|? ? Hs Hx]; subst.
  destruct (keep x); simpl; [|now apply IH].
  constructor; [now apply IH|].
  rewrite Forall_forall in *. intros z Hz. apply Hx.
  apply in_map_iff in Hz. destruct Hz as (a & <- & Ha).
  apply filter_In in Ha. apply in_map. tauto.
Qed.

Lemma filter_dates_unique (keep : Row -> bool) (l : list Row) :
  NoDup (map work_date l) -> NoDup (map work_date (filter keep l)).
Proof.
  induction l as [|x t IH]; simpl; intros H; [constructor|].
  inversion H as [|? ? Hnotin Hnd]; subst.
  destruct (keep x); simpl; [|now apply IH].
  constructor; [|now apply IH].
  intros Hin. apply Hnotin.
  apply in_map_iff in Hin. destruct Hin as (a & Ea & Ha).
  rewrite <- Ea. apply filter_In in Ha. apply in_map. tauto.
Qed.

Lemma insert_row_sorted (x : Row) (l : list Row) :
  StronglySorted Z.lt (map id l) -> ~ In (id x) (map id l) ->
  StronglySorted Z.lt (map id (insert_row x l)).
Proof.
  induction l as [|y t IH]; simpl; intros Hs Hfresh.
  - repeat constructor.
  - inversion Hs as [|? ? Hs' Hy]; subst.
    destruct (id x <? id y) eqn:E; simpl.
    + apply Z.ltb_lt in E. constructor; [exact Hs|].
      constructor; [exact E|].
      eapply Forall_impl; [|exact Hy]. intros z Hz. lia.
    + apply Z.ltb_ge in E. constructor.
      * apply IH; [exact Hs'|]. intros Hin. apply Hfresh. now right.
      * apply (Permutation_Forall
                 (Permutation_sym (Permutation_map id (insert_row_perm x t)))).
        simpl. constructor; [|exact Hy].
        assert (id y <> id x) by (intros Heq; apply Hfresh; now left). lia.
Qed.

Lemma empty_table_ok : table_ok empty_table.
Proof. split; simpl; constructor. Qed.

Lemma add_data_ok (t : table) (d : string) (h : Q) (m : string) :
  table_ok t -> table_ok (add_data t d h m).
Proof.
  intros [Hids Hdates Hseq].
  destruct (add_data_rows t d h m) as (i & Hrows & Hs & _).
  set (kept := filter (fun r => negb ((id r =? i) || has_date d r)) (rows t))
    in *.
  assert (Hkept : forall r, In r kept -> In r (rows t) /\ id r <> i
                                         /\ work_date r <> d)
    by (intros r; apply kept_spec).
  split; rewrite Hrows.
  - apply insert_row_sorted; [now apply filter_ids_sorted|].
    simpl. intros Hin. apply in_map_iff in Hin.
    destruct Hin as (r & Hr & Hin). now apply Hkept in Hin.
  - apply (Permutation_NoDup
             (Permutation_sym (Permutation_map work_date
                                 (insert_row_perm _ kept)))).
    simpl. constructor; [|now apply filter_dates_unique].
    intros Hin. apply in_map_iff in Hin.
    destruct Hin as (r & Hr & Hin). now apply Hkept in Hin.
  - rewrite Hs.
    apply (Permutation_Forall
             (Permutation_sym (Permutation_map id (insert_row_perm _ kept)))).
    simpl. constructor; [lia|].
    rewrite Forall_forall in *. intros z Hz.
    apply in_map_iff in Hz. destruct Hz as (r & <- & Hr).
    apply Hkept in Hr. destruct Hr as (Hr & _).
    specialize (Hseq (id r) (in_map id _ _ Hr)). simpl in Hseq. lia.
Qed.

Lemma update_where_date_ids (t : table) (h : Q) (m d : string) :
  map id (rows (update_where_date t h m d)) = map id (rows t).
Proof.
  unfold update_where_date. simpl. rewrite map_map.
  apply map_ext. intros r. now destruct (has_date d r).
Qed.

Lemma update_where_date_dates (t : table) (h : Q) (m d : string) :
  map work_date (rows (update_where_date t h m d)) = map work_date (rows t).
Proof.
  unfold update_where_date. simpl. rewrite map_map.
  apply map_ext. intros r. now destruct (has_date d r).
Qed.

Lemma update_where_date_absent (t : table) (h : Q) (m d : string) :
  (forall r, In r (rows t) -> work_date r <> d) ->
  update_where_date t h m d = t.
Proof.
  intros H. destruct t as [l s]. unfold update_where_date. simpl in *.
  f_equal. rewrite <- (map_id l) at 2. apply map_ext_in.
  intros r Hr. now rewrite (proj2 (has_date_false d r) (H r Hr)).
Qed.

Lemma update_hours_inv (t t' : table) (s : string) (h : Q) :
  update_hours_for_date t s h = Ok t' ->
  exists d, strptime_Ymd s = Ok d
            /\ t' = update_where_date t h (strftime_B d) s.
Proof.
  unfold update_hours_for_date, bind.
  destruct (strptime_Ymd s) as [d|e]; [|discriminate].
  intros H. injection H as <-. now exists d.
Qed.

Lemma update_hours_ok (t t' : table) (s : string) (h : Q) :
  table_ok t -> update_hours_for_date t s h = Ok t' -> table_ok t'.
Proof.
  intros [Hids Hdates Hseq] H.
  apply update_hours_inv in H. destruct H as (d & _ & ->).
  split.
  - now rewrite update_where_date_ids.
  - now rewrite update_where_date_dates.
  - now rewrite update_where_date_ids.
Qed.

End Constraints.

(* ================================================================== *)
(** * Upsert by date *)

Section Upsert.

Lemma get_all_dates_In (t : table) (d : string) :
  In d (get_all_dates t) <-> exists r, In r (rows t) /\ work_date r = d.
Proof.
  unfold get_all_dates. rewrite ordered_distinct_In, in_map_iff.
  split; intros (r & H1 & H2); exists r; tauto.
Qed.



Lemma repeat_upsert_id (t : table) (d : string) (i : Z)
    (us : list (Q * string)) :
  select_id t d = Some i -> select_id (repeat_upsert t d us) d = Some i.
Proof.
  unfold repeat_upsert. revert t.
  induction us as [|[h m] us IH]; intros t Hi; simpl; [exact Hi|].
  apply IH. now apply select_id_add_data.
Qed.

Lemma select_id_of_row (t : table) (r : Row) :
  table_ok t -> In r (rows t) -> select_id t (work_date r) = Some (id r).
Proof.
  intros Hok Hr. unfold select_id.
  now rewrite (find_unique _ _ (ok_dates t Hok) Hr).
Qed.

Lemma selected_id_of_rows (t : table) (d : string) (i : Z) (r : Row) :
  table_ok t -> select_id t d = Some i ->
  In r (rows t) -> work_date r = d -> id r = i.
Proof.
  intros Hok Hsel Hr Hd. subst d.
  rewrite (select_id_of_row t r Hok Hr) in Hsel. congruence.
Qed.

Lemma selected_row_exists (t : table) (d : string) (i : Z) :
  select_id t d = Some i ->
  exists r, In r (rows t) /\ work_date r = d.
Proof.
  unfold select_id.
  destruct (find (has_date d) (rows t)) as [r|] eqn:E; [|discriminate].
  intros _. apply find_some in E. exists r.
  split; [tauto | now apply has_date_true].
Qed.

Lemma repeat_upsert_ok (t : table) (d : string) (us : list (Q * string)) :
  table_ok t -> table_ok (repeat_upsert t d us).
Proof.
  unfold repeat_upsert. revert t.
  induction us as [|[h m] us IH]; intros t Hok; simpl; [exact Hok|].
  apply IH. now apply add_data_ok.
Qed.

(** C10.  In a table that satisfies the schema, an upsert to the date of
    a stored row replaces that row by one with the same id: the new row
    is in the table with the old row's id, and every row of the date has
    that id.  After any sequence of upserts to the date, the date still
    has a row and every row of the date still has the old row's id. *)
Theorem upsert_keeps_id (t : table) (r : Row) :
  table_ok t -> In r (rows t) ->
  (forall h m,
      In (mkRow (id r) (work_date r) h m)
        (rows (add_data t (work_date r) h m))
      /\ forall r', In r' (rows (add_data t (work_date r) h m)) ->
                    work_date r' = work_date r -> id r' = id r)
  /\ forall us,
       (exists r', In r' (rows (repeat_upsert t (work_date r) us))
                   /\ work_date r' = work_date r)
       /\ forall r', In r' (rows (repeat_upsert t (work_date r) us)) ->
                     work_date r' = work_date r -> id r' = id r.
Proof.
  intros Hok Hr.
  pose proof (select_id_of_row t r Hok Hr) as Hi. split.
  - intros h m.
    destruct (add_data_find t (work_date r) h m) as (j & Hf & Hrs & Hj).
    rewrite (Hj (id r) Hi) in *. split.
    + apply find_some in Hf. tauto.
    + intros r' Hin Hd.
      assert (Hin' : In r' (rows_of_date (add_data t (work_date r) h m)
                              (work_date r))).
      { apply filter_In. split; [exact Hin | now apply has_date_true]. }
      rewrite Hrs in Hin'. destruct Hin' as [<- | []]. reflexivity.
  - intros us.
    pose proof (repeat_upsert_id t (work_date r) (id r) us Hi) as Hsel.
    pose proof (repeat_upsert_ok t (work_date r) us Hok) as Hok'.
    split.
    + exact (selected_row_exists _ _ _ Hsel).
    + intros r' Hin Hd.
      exact (selected_id_of_rows _ _ _ r' Hok' Hsel Hin Hd).
Qed.

End Upsert.

(* ================================================================== *)
(** * Lookup and update of one date *)

Section LookupUpdate.

(** C6.  The lookup of a date without a row returns the default 0.0; in a
    table that satisfies the schema, the lookup of a stored row's date
    returns the hours of that row.  [get_hours_for_date] has no error
    result at all. *)
Theorem get_hours_default_or_stored (t : table) :
  table_ok t ->
  (forall d, (forall r, In r (rows t) -> work_date r <> d) ->
             get_hours_for_date t d = 0%Q)
  /\ (forall r, In r (rows t) ->
                get_hours_for_date t (work_date r) = hours_worked r).
Proof.
  intros Hok. split.
  - intros d Hd. unfold get_hours_for_date.
    rewrite find_absent; [reflexivity|].
    intros r Hr. apply has_date_false. now apply Hd.
  - intros r Hr. unfold get_hours_for_date.
    now rewrite (find_unique _ _ (ok_dates t Hok) Hr).
Qed.

Lemma update_missing_noop (t : table) (s : string) (d : date) (h : Q) :
  strptime_Ymd s = Ok d ->
  (forall r, In r (rows t) -> work_date r <> s) ->
  update_hours_for_date t s h = Ok t.
Proof.
  intros Hp Hno. unfold update_hours_for_date. rewrite Hp. simpl.
  now rewrite update_where_date_absent.
Qed.

(** C3.  For every valid date without a row, the update of its hours,
    addressed by the date's ISO text, returns normally and returns the
    table it was given: no error, no new row, nothing changed. *)
Theorem update_missing_date_noop (t : table) (d : date) (h : Q) :
  valid_date d = true ->
  (forall r, In r (rows t) -> work_date r <> iso_text d) ->
  update_hours_for_date t (iso_text d) h = Ok t.
Proof.
  intros Hv Hno.
  apply (update_missing_noop t _ d); [now apply strptime_iso_text | exact Hno].
Qed.

End LookupUpdate.

(* ================================================================== *)
(** * Listings *)

Section Listings.

(** C4.  [get_months] returns exactly the month names present in the
    table, each once, in strictly ascending lexicographic order; on a
    table without rows it returns the empty list. *)
Theorem get_months_distinct_sorted (t : table) :
  (forall m, In m (get_months t) <->
             exists r, In r (rows t) /\ month_name r = m)
  /\ NoDup (get_months t)
  /\ StronglySorted (fun a b => String.ltb a b = true) (get_months t)
  /\ (forall n, get_months (mkTable [] n) = []).
Proof.
  unfold get_months. repeat split.
  - rewrite ordered_distinct_In, in_map_iff.
    intros (r & H1 & H2). exists r. tauto.
  - rewrite ordered_distinct_In, in_map_iff.
    intros (r & H1 & H2). exists r. tauto.
  - apply ordered_distinct_NoDup.
  - apply ordered_distinct_strict.
Qed.

Lemma sorted_entries (l : list Row) :
  StronglySorted (key_le work_date) l ->
  StronglySorted (key_le (fun e : string * Q * string => fst (fst e)))
    (map entry_of l).
Proof.
  induction 1 as [|x t Hs IH Hx]; simpl; constructor; [exact IH|].
  rewrite Forall_forall in *. intros e He.
  apply in_map_iff in He. destruct He as (r & <- & Hr).
  exact (Hx r Hr).
Qed.

(** C5.  [get_timesheet_by_month] returns exactly the entries (date,
    hours, month) of the rows whose [month_name] is the month asked for,
    in ascending order of [work_date]; when no row has that month it
    returns the empty list. *)
Theorem get_timesheet_by_month_exact (t : table) (M : string) :
  Permutation (get_timesheet_by_month t M)
    (map (fun r => (work_date r, hours_worked r, month_name r))
       (filter (fun r => String.eqb (month_name r) M) (rows t)))
  /\ (forall d h m, In (d, h, m) (get_timesheet_by_month t M) <->
                    m = M /\ exists r, In r (rows t) /\ work_date r = d
                                       /\ hours_worked r = h
                                       /\ month_name r = M)
  /\ StronglySorted (key_le (fun e : string * Q * string => fst (fst e)))
       (get_timesheet_by_month t M)
  /\ ((forall r, In r (rows t) -> month_name r <> M) ->
      get_timesheet_by_month t M = []).
Proof.
  unfold get_timesheet_by_month. split; [|split; [|split]].
  - apply (Permutation_map entry_of), order_by_perm.
  - intros d h m. split.
    + intros He. apply in_map_iff in He. destruct He as (r & Er & Hr).
      apply order_by_In, filter_In in Hr. destruct Hr as (Hr & HM).
      apply String.eqb_eq in HM. unfold entry_of in Er.
      injection Er as <- <- <-. split; [exact HM|]. now exists r.
    + intros (-> & r & Hr & <- & <- & HM). apply in_map_iff. exists r.
      split; [unfold entry_of; now rewrite HM|].
      apply order_by_In, filter_In.
      split; [exact Hr | now apply String.eqb_eq].
  - apply sorted_entries, order_by_sorted.
  - intros Hno. rewrite filter_absent; [reflexivity|].
    intros r Hr. apply String.eqb_neq. now apply Hno.
Qed.

End Listings.

(* ================================================================== *)
(** * What a run of [main] does to the database *)

Section MainDatabase.

(** A run leaves the database as it was, creates the table, logs the
    hours of the date picked, or updates the hours of a listed date. *)
Lemma main_database_cases (env : option string) (ss : option session_state)
    (w : widgets) (db : option table) :
  database (main env ss w db) = db
  \/ database (main env ss w db) = Some (create_table db)
  \/ database (main env ss w db)
     = Some (add_data (create_table db) (strftime_Ymd (input_date w))
               (hours_input w) (strftime_B (input_date w)))
  \/ exists d t',
       In d (get_all_dates (create_table db))
       /\ update_hours_for_date (create_table db) d (new_hours_input w)
          = Ok t'
       /\ database (main env ss w db) = Some t'.
Proof.
  unfold main.
  destruct (negb (truthy env)); [now left|].
  destruct (negb (logged_in _)).
  { destruct (login_pressed w); [|now left].
    destruct (_ && _); now left. }
  destruct (selectbox _ (menu_index w)) as [c|]; [|now (right; left)].
  destruct (String.eqb c "View Timesheet"); [now (right; left)|].
  destruct (String.eqb c "Log Hours").
  { unfold log_hours. destruct (log_pressed w); simpl; tauto. }
  destruct (String.eqb c "Edit Hours"); [|now (right; left)].
  destruct (negb (has_edit_access _)); [now (right; left)|].
  unfold edit_hours.
  destruct (get_all_dates (create_table db)) as [|d0 ds] eqn:Hdates;
    [now (right; left)|].
  destruct (selectbox (d0 :: ds) (date_index w)) as [d|] eqn:Hsel;
    [|now (right; left)].
  destruct (truthy (Some d)); [|now (right; left)].
  destruct (negb (Qle_bool 0 _)); [now (right; left)|].
  destruct (update_pressed w); [|now (right; left)].
  destruct (update_hours_for_date _ d _) as [t'|e] eqn:Hup;
    [|now (right; left)].
  right; right; right. exists d, t'. repeat split; try assumption.
  unfold selectbox in Hsel. now apply nth_error_In in Hsel.
Qed.

End MainDatabase.

(* ================================================================== *)
(** * Invariants of the stored entries *)

Section EntryInvariants.

Lemma main_invariant (P : table -> Prop) (env : option string)
    (ss : option session_state) (w : widgets) (db : option table)
    (t' : table) :
  (forall t, db = Some t -> P t) ->
  P empty_table ->
  (forall t, P t ->
     P (add_data t (strftime_Ymd (input_date w)) (hours_input w)
          (strftime_B (input_date w)))) ->
  (forall t d t1, P t ->
     update_hours_for_date t d (new_hours_input w) = Ok t1 -> P t1) ->
  database (main env ss w db) = Some t' -> P t'.
Proof.
  intros Hdb Hempty Hadd Hupd Hrun.
  assert (Hcreated : P (create_table db)).
  { destruct db as [t|]; simpl; [now apply Hdb | exact Hempty]. }
  destruct (main_database_cases env ss w db)
    as [E | [E | [E | (d & t1 & _ & Hup & E)]]];
    rewrite E in Hrun.
  - now apply Hdb.
  - injection Hrun as <-. exact Hcreated.
  - injection Hrun as <-. now apply Hadd.
  - injection Hrun as <-. exact (Hupd _ _ _ Hcreated Hup).
Qed.

Lemma add_data_month_consistent (t : table) (s : string) (h : Q)
    (m : string) :
  month_consistent t -> month_of_work_date s = Some m ->
  month_consistent (add_data t s h m).
Proof.
  unfold month_consistent. rewrite !Forall_forall. intros Ht Hm r Hr.
  destruct (add_data_In t s h m r Hr) as [(Hd & _ & Hmn) | (Hin & _)].
  - now rewrite Hd, Hmn.
  - now apply Ht.
Qed.

Lemma update_month_consistent (t t' : table) (s : string) (h : Q) :
  month_consistent t -> update_hours_for_date t s h = Ok t' ->
  month_consistent t'.
Proof.
  intros Ht Hup. apply update_hours_inv in Hup.
  destruct Hup as (d & Hd & ->).
  unfold month_consistent, update_where_date in *. simpl.
  rewrite Forall_forall in *. intros r Hr.
  apply in_map_iff in Hr. destruct Hr as (r0 & <- & Hr0).
  destruct (has_date s r0) eqn:E; [|now apply Ht].
  apply has_date_true in E. simpl. rewrite E.
  unfold month_of_work_date. now rewrite Hd.
Qed.

Lemma add_data_hours_nonneg (t : table) (d : string) (h : Q) (m : string) :
  hours_nonneg t -> (0 <= h)%Q -> hours_nonneg (add_data t d h m).
Proof.
  unfold hours_nonneg. rewrite !Forall_forall. intros Ht Hh r Hr.
  destruct (add_data_In t d h m r Hr) as [(_ & Hhr & _) | (Hin & _)].
  - now rewrite Hhr.
  - now apply Ht.
Qed.

Lemma update_hours_nonneg (t t' : table) (s : string) (h : Q) :
  hours_nonneg t -> (0 <= h)%Q -> update_hours_for_date t s h = Ok t' ->
  hours_nonneg t'.
Proof.
  intros Ht Hh Hup. apply update_hours_inv in Hup.
  destruct Hup as (d & _ & ->).
  unfold hours_nonneg, update_where_date in *. simpl.
  rewrite Forall_forall in *. intros r Hr.
  apply in_map_iff in Hr. destruct Hr as (r0 & <- & Hr0).
  destruct (has_date s r0); [exact Hh | now apply Ht].
Qed.

(** C2, as the code has it.  [add_data] stores the month name it is
    handed; the invariant that every row's [month_name] is the month of
    its [work_date] is kept by [add_data] whenever the month name handed
    in is the month of the date handed in, by [update_hours_for_date]
    always, and by every run of [main], which formats both arguments of
    [add_data] from the one date picked; the date picker offers dates
    within ten years of today, whose year [strftime] writes on four
    digits. *)
Theorem month_name_follows_work_date (t : table) :
  month_consistent t ->
  (forall s h m, month_of_work_date s = Some m ->
                 month_consistent (add_data t s h m))
  /\ (forall s h t', update_hours_for_date t s h = Ok t' ->
                     month_consistent t')
  /\ (forall env ss w t', valid_date (input_date w) = true ->
        1000 <= year (input_date w) ->
        database (main env ss w (Some t)) = Some t' -> month_consistent t').
Proof.
  intros Ht. repeat split.
  - intros s h m Hm. now apply add_data_month_consistent.
  - intros s h t' Hup. now apply (update_month_consistent t t' s h).
  - intros env ss w t' Hv Hy Hrun.
    apply (main_invariant month_consistent env ss w (Some t) t');
      try assumption.
    + intros t0 [= <-]. exact Ht.
    + constructor.
    + intros t0 Ht0. apply add_data_month_consistent; [exact Ht0|].
      now apply month_of_strftime.
    + intros t0 d t1 Ht0. now apply update_month_consistent.
Qed.

(** C7, as the code has it.  The write operations store the hours they
    are handed without a check; handed hours that are not negative, they
    keep every stored entry's hours non-negative, and so does every run
    of [main] whose two number inputs (both declared with
    [min_value=0.0]) return non-negative values. *)
Theorem hours_stay_nonneg (t : table) :
  hours_nonneg t ->
  (forall d h m, (0 <= h)%Q -> hours_nonneg (add_data t d h m))
  /\ (forall s h t', (0 <= h)%Q -> update_hours_for_date t s h = Ok t' ->
                     hours_nonneg t')
  /\ (forall env ss w t',
        (0 <= hours_input w)%Q -> (0 <= new_hours_input w)%Q ->
        database (main env ss w (Some t)) = Some t' -> hours_nonneg t').
Proof.
  intros Ht. repeat split.
  - intros d h m Hh. now apply add_data_hours_nonneg.
  - intros s h t' Hh Hup. now apply (update_hours_nonneg t t' s h).
  - intros env ss w t' Hh Hn Hrun.
    apply (main_invariant hours_nonneg env ss w (Some t) t');
      try assumption.
    + intros t0 [= <-]. exact Ht.
    + constructor.
    + intros t0 Ht0. now apply add_data_hours_nonneg.
    + intros t0 d t1 Ht0. now apply update_hours_nonneg.
Qed.

End EntryInvariants.

(* ================================================================== *)
(** * Start-up and login *)

Section Controller.

Lemma truthy_Some (p : string) : p <> EmptyString -> truthy (Some p) = true.
Proof. intros H. simpl. now rewrite (proj2 (String.eqb_neq p _) H). Qed.

Lemma state_of_LoggedOut (ss : option session_state) :
  state_of ss = LoggedOut ->
  logged_in (match ss with
             | Some s => s
             | None => mkSession false None false
             end) = false.
Proof.
  destruct ss as [s|]; simpl; [|reflexivity].
  destruct (logged_in s); [|reflexivity].
  destruct (has_edit_access s); discriminate.
Qed.

(** C8.  With the password set in the environment and the session logged
    out, pressing Login with the user name "raisediversity" and the
    environment's password makes the session a logged-in editor (edit
    access granted) and reruns the script; with any other pair the
    session stays logged out and the error message is put on the page. *)
Theorem login_transition (p : string) (ss : option session_state)
    (w : widgets) (db : option table) :
  p <> EmptyString -> state_of ss = LoggedOut -> login_pressed w = true ->
  let r := main (Some p) ss w db in
  (input_user w = "raisediversity"%string /\ input_pass w = p ->
     state_of (session r) = LoggedIn_Editor
     /\ session r = Some (mkSession true (Some "raisediversity"%string) true)
     /\ how r = Rerun)
  /\ (~ (input_user w = "raisediversity"%string /\ input_pass w = p) ->
     state_of (session r) = LoggedOut
     /\ In (st_error "Invalid credentials. Please try again.") (page r)
     /\ how r = Stopped).
Proof.
  intros Hp Hout Hpress r. subst r. unfold main.
  rewrite (truthy_Some p Hp). cbn [negb].
  rewrite (state_of_LoggedOut ss Hout). cbn [negb]. rewrite Hpress.
  destruct (String.eqb_spec (input_user w) "raisediversity") as [Hu|Hu];
    destruct (String.eqb_spec (input_pass w) p) as [Hw|Hw]; cbn [andb].
  1: split; [intros _; rewrite Hu; simpl; auto | intros H; tauto].
  all: split; [intros [? ?]; contradiction|]; intros _; cbn [session page how];
    (split; [|split; [apply in_or_app; right; now left | reflexivity]]);
    unfold state_of; destruct ss as [s|]; try reflexivity;
    simpl in Hout |- *; destruct (logged_in s); try reflexivity;
    destruct (has_edit_access s); discriminate.
Qed.

(** C9.  When TIMESHEET_PASSWORD is absent or empty, a run of [main] puts
    the error message on the page and stops there: no login form and no
    view is rendered, and neither the session nor the database is
    touched. *)
Theorem missing_password_halts (env : option string)
    (ss : option session_state) (w : widgets) (db : option table) :
  env = None \/ env = Some EmptyString ->
  let r := main env ss w db in
  r = mkRun
        [page_config;
         st_error "No password found in environment variable 'TIMESHEET_PASSWORD'."]
        ss db Stopped
  /\ existsb is_view (page r) = false.
Proof.
  intros [-> | ->]; split; reflexivity.
Qed.

End Controller.

(* ================================================================== *)
(** * The scenarios, evaluated *)

Section Scenarios.

Example scenario_replace :
  let t := add_data (add_data empty_table "2024-01-05" 8 "January")
             "2024-01-05" (13 # 2) "January" in
  get_hours_for_date t "2024-01-05" = (13 # 2)%Q
  /\ rows t = [mkRow 1 "2024-01-05" (13 # 2) "January"].
Proof. split; reflexivity. Qed.

Example scenario_fresh :
  get_months empty_table = [] /\ get_all_dates empty_table = [].
Proof. split; reflexivity. Qed.

Example scenario_two_months :
  get_months two_days = ["February"; "January"]%string
  /\ get_all_dates two_days = ["2024-01-05"; "2024-02-10"]%string.
Proof. split; reflexivity. Qed.

Example scenario_month_listing :
  get_timesheet_by_month two_days "January"
  = [("2024-01-05"%string, 8%Q, "January"%string)]
  /\ get_timesheet_by_month two_days "March" = [].
Proof. split; reflexivity. Qed.

Example scenario_update_unknown_date :
  update_hours_for_date two_days "2099-12-31" 5 = Ok two_days.
Proof. reflexivity. Qed.

Example scenario_update_known_date :
  update_hours_for_date two_days "2024-02-10" 5
  = Ok (mkTable [mkRow 1 "2024-01-05" 8 "January";
                 mkRow 2 "2024-02-10" 5 "February"] 2).
Proof. reflexivity. Qed.

Example scenario_update_not_a_date :
  update_hours_for_date two_days "next friday" 5 = Raise ValueError
  /\ update_hours_for_date two_days "2023-02-29" 5 = Raise ValueError.
Proof. split; reflexivity. Qed.

Example scenario_strptime_short_fields :
  strptime_Ymd "2024-1-5" = Ok jan5
  /\ strptime_Ymd "2024-01-05" = Ok jan5
  /\ strftime_Ymd jan5 = "2024-01-05"%string.
Proof. repeat split; reflexivity. Qed.

Example scenario_login :
  state_of (session (main (Some "s3cret"%string) None
                      (login_with "raisediversity" "guess") None))
  = LoggedOut
  /\ state_of (session (main (Some "s3cret"%string) None
                         (login_with "raisediversity" "s3cret") None))
     = LoggedIn_Editor.
Proof. split; reflexivity. Qed.

Example scenario_log_hours :
  database (main (Some "s3cret"%string)
              (Some (mkSession true (Some "raisediversity"%string) true))
              log_jan5 None)
  = Some (mkTable [mkRow 1 "2024-01-05" 8 "January"] 1).
Proof. reflexivity. Qed.

Example scenario_year_below_1000 :
  strftime_Ymd (mkdate 999 12 31) = "999-12-31"%string
  /\ iso_text (mkdate 999 12 31) = "0999-12-31"%string
  /\ strptime_Ymd "999-12-31" = Raise ValueError
  /\ strptime_Ymd "0999-12-31" = Ok (mkdate 999 12 31)
  /\ String.ltb (strftime_Ymd (mkdate 1000 1 1))
       (strftime_Ymd (mkdate 999 12 31)) = true.
Proof. repeat split; reflexivity. Qed.

Example scenario_edit_view_negative_hours :
  how (main (Some "s3cret"%string)
         (Some (mkSession true (Some "raisediversity"%string) true))
         (mkWidgets "" "" false 2 0 jan5 0 false 0 5 true)
         (Some (add_data empty_table "2024-01-05" (-1) "January")))
  = Crashed StreamlitAPIException.
Proof. reflexivity. Qed.

End Scenarios.

(* ================================================================== *)
(** * Where the storage functions do not check their arguments *)

Section Unchecked.

(** Against C2 as stated: [add_data] called with a month name that is not
    the month of the date stores the pair as it is. *)
Lemma add_data_month_mismatch :
  month_consistent empty_table
  /\ ~ month_consistent (add_data empty_table "2024-01-05" 8 "March").
Proof.
  split; [constructor|].
  intros H. apply Forall_inv in H. vm_compute in H. discriminate.
Qed.

(** Against C7 as stated: both write operations store negative hours
    when handed them. *)
Lemma negative_hours_are_stored :
  hours_nonneg empty_table
  /\ ~ hours_nonneg (add_data empty_table "2024-01-05" (-1) "January")
  /\ hours_nonneg two_days
  /\ exists t', update_hours_for_date two_days "2024-01-05" (-1) = Ok t'
                /\ ~ hours_nonneg t'.
Proof.
  split; [constructor|]. split.
  { intros H. apply Forall_inv in H. vm_compute in H. now apply H. }
  split.
  { repeat (apply Forall_cons; [unfold Qle; simpl; lia|]). constructor. }
  eexists. split; [reflexivity|].
  intros H. apply Forall_inv in H. vm_compute in H. now apply H.
Qed.

End Unchecked.

(* ================================================================== *)
(** * The theorems at the sample data *)

Section Instances.

Lemma two_days_ok : table_ok two_days.
Proof. apply add_data_ok, add_data_ok, empty_table_ok. Defined.

Lemma two_days_rows (r : Row) :
  In r (rows two_days) ->
  r = mkRow 1 "2024-01-05" 8 "January"
  \/ r = mkRow 2 "2024-02-10" 3 "February".
Proof.
  intros H. vm_compute in H. destruct H as [H | [H | []]]; auto.
Defined.

Lemma get_timesheet_by_month_exact_witness :
  (forall r, In r (rows two_days) -> month_name r <> "March"%string)
  /\ get_timesheet_by_month two_days "March" = []
  /\ In ("2024-01-05"%string, 8%Q, "January"%string)
       (get_timesheet_by_month two_days "January").
Proof.
  assert (Hno : forall r, In r (rows two_days) ->
                          month_name r <> "March"%string).
  { intros r Hr. destruct (two_days_rows r Hr) as [-> | ->]; discriminate. }
  split; [exact Hno|]. split.
  - exact (proj2 (proj2 (proj2
             (get_timesheet_by_month_exact two_days "March"))) Hno).
  - apply (proj1 (proj2 (get_timesheet_by_month_exact two_days "January"))).
    split; [reflexivity|].
    exists (mkRow 1 "2024-01-05" 8 "January").
    repeat split. left. reflexivity.
Defined.

Lemma get_hours_default_or_stored_witness :
  table_ok two_days
  /\ get_hours_for_date two_days "2099-12-31" = 0%Q
  /\ get_hours_for_date two_days "2024-02-10" = 3%Q.
Proof.
  split; [exact two_days_ok|].
  destruct (get_hours_default_or_stored two_days two_days_ok) as [H0 H1].
  split.
  - apply H0. intros r Hr.
    destruct (two_days_rows r Hr) as [-> | ->]; discriminate.
  - exact (H1 (mkRow 2 "2024-02-10" 3 "February") (or_intror (or_introl eq_refl))).
Defined.

Lemma update_missing_date_noop_witness :
  valid_date dec31 = true
  /\ (forall r, In r (rows two_days) -> work_date r <> iso_text dec31)
  /\ update_hours_for_date two_days "2099-12-31" 5 = Ok two_days.
Proof.
  assert (Hno : forall r, In r (rows two_days) ->
                          work_date r <> iso_text dec31).
  { intros r Hr. destruct (two_days_rows r Hr) as [-> | ->];
      vm_compute; discriminate. }
  split; [reflexivity|]. split; [exact Hno|].
  exact (update_missing_date_noop two_days dec31 5 eq_refl Hno).
Defined.

Lemma upsert_keeps_id_witness :
  table_ok two_days
  /\ In (mkRow 2 "2024-02-10" 3 "February") (rows two_days)
  /\ In (mkRow 2 "2024-02-10" (13 # 2) "February")
       (rows (add_data two_days "2024-02-10" (13 # 2) "February"))
  /\ forall r',
       In r' (rows (repeat_upsert two_days "2024-02-10"
                      [(1%Q, "February"%string); (2%Q, "February"%string)])) ->
       work_date r' = "2024-02-10"%string -> id r' = 2.
Proof.
  assert (Hin : In (mkRow 2 "2024-02-10" 3 "February") (rows two_days))
    by (right; left; reflexivity).
  split; [exact two_days_ok|]. split; [exact Hin|].
  destruct (upsert_keeps_id two_days (mkRow 2 "2024-02-10" 3 "February")
              two_days_ok Hin) as [H1 H2].
  split.
  - exact (proj1 (H1 (13 # 2)%Q "February"%string)).
  - exact (proj2 (H2 [(1%Q, "February"%string); (2%Q, "February"%string)])).
Defined.

Lemma two_days_month_consistent : month_consistent two_days.
Proof. repeat (apply Forall_cons; [reflexivity|]). constructor. Defined.

Lemma two_days_hours_nonneg : hours_nonneg two_days.
Proof.
  repeat (apply Forall_cons; [unfold Qle; simpl; lia|]). constructor.
Defined.

Lemma month_name_follows_work_date_witness :
  month_consistent two_days
  /\ month_of_work_date "2024-03-01" = Some "March"%string
  /\ month_consistent (add_data two_days "2024-03-01" 4 "March")
  /\ month_consistent
       (mkTable [mkRow 1 "2024-01-05" 8 "January";
                 mkRow 2 "2024-02-10" 5 "February"] 2).
Proof.
  split; [exact two_days_month_consistent|].
  destruct (month_name_follows_work_date two_days two_days_month_consistent)
    as (Hadd & Hupd & _).
  split; [reflexivity|]. split.
  - exact (Hadd "2024-03-01"%string 4%Q "March"%string eq_refl).
  - exact (Hupd "2024-02-10"%string 5%Q _ eq_refl).
Defined.

Lemma hours_stay_nonneg_witness :
  hours_nonneg two_days
  /\ (0 <= 4)%Q
  /\ hours_nonneg (add_data two_days "2024-03-01" 4 "March")
  /\ hours_nonneg
       (mkTable [mkRow 1 "2024-01-05" 8 "January";
                 mkRow 2 "2024-02-10" 4 "February"] 2).
Proof.
  assert (H4 : (0 <= 4)%Q) by (unfold Qle; simpl; lia).
  split; [exact two_days_hours_nonneg|].
  destruct (hours_stay_nonneg two_days two_days_hours_nonneg)
    as (Hadd & Hupd & _).
  split; [exact H4|]. split.
  - exact (Hadd "2024-03-01"%string 4%Q "March"%string H4).
  - exact (Hupd "2024-02-10"%string 4%Q _ H4 eq_refl).
Defined.

Lemma login_transition_witness :
  "s3cret"%string <> EmptyString
  /\ state_of None = LoggedOut
  /\ state_of (session (main (Some "s3cret"%string) None
                         (login_with "raisediversity" "s3cret") None))
     = LoggedIn_Editor
  /\ state_of (session (main (Some "s3cret"%string) None
                         (login_with "raisediversity" "guess") None))
     = LoggedOut.
Proof.
  assert (Hp : "s3cret"%string <> EmptyString) by discriminate.
  split; [exact Hp|]. split; [reflexivity|]. split.
  - exact (proj1
             (proj1 (login_transition "s3cret" None
                       (login_with "raisediversity" "s3cret") None
                       Hp eq_refl eq_refl)
                (conj eq_refl eq_refl))).
  - refine (proj1
              (proj2 (login_transition "s3cret" None
                        (login_with "raisediversity" "guess") None
                        Hp eq_refl eq_refl) _)).
    intros [_ H]. discriminate H.
Defined.

Lemma missing_password_halts_witness :
  how (main None None log_jan5 (Some two_days)) = Stopped
  /\ how (main (Some EmptyString) None log_jan5 (Some two_days)) = Stopped
  /\ existsb is_view (page (main None None log_jan5 (Some two_days))) = false.
Proof.
  pose proof (missing_password_halts None None log_jan5 (Some two_days)
                (or_introl eq_refl)) as [H1 H2].
  pose proof (missing_password_halts (Some EmptyString) None log_jan5
                (Some two_days) (or_intror eq_refl)) as [H3 _].
  cbv zeta in H1, H2, H3.
  split; [now rewrite H1|]. split; [now rewrite H3 | exact H2].
Defined.

End Instances.

(* ================================================================== *)
(** * More on the table: dates listed, rows kept, ids handed out *)

Section TableMore.

Lemma rowid_determines_row (l : list Row) (a b : Row) :
  StronglySorted Z.lt (map id l) -> In a l -> In b l -> id a = id b -> a = b.
Proof.
  induction l as [|x t IH]; simpl; intros Hs Ha Hb E; [contradiction|].
  inversion Hs as [|? ? Hs' Hx]; subst. rewrite Forall_forall in Hx.
  destruct Ha as [-> | Ha]; destruct Hb as [-> | Hb]; auto.
  - specialize (Hx (id b) (in_map id _ _ Hb)). lia.
  - specialize (Hx (id a) (in_map id _ _ Ha)). lia.
Qed.

Lemma date_selects_one_row (l : list Row) (r : Row) :
  NoDup (map work_date l) -> In r l ->
  filter (has_date (work_date r)) l = [r].
Proof.
  induction l as [|x t IH]; simpl; intros Hnd Hin; [contradiction|].
  inversion Hnd as [|? ? Hnotin Hnd']; subst.
  destruct Hin as [-> | Hin].
  - rewrite (proj2 (has_date_true _ _) eq_refl). f_equal.
    apply filter_absent. intros y Hy. apply has_date_false.
    intros E. apply Hnotin. rewrite <- E. now apply in_map.
  - destruct (has_date (work_date r) x) eqn:E; [|now apply IH].
    apply has_date_true in E. exfalso. apply Hnotin.
    rewrite E. now apply in_map.
Qed.

Lemma select_id_Some (t : table) (d : string) (j : Z) :
  select_id t d = Some j ->
  exists r, In r (rows t) /\ work_date r = d /\ id r = j.
Proof.
  unfold select_id. destruct (find (has_date d) (rows t)) as [r|] eqn:E;
    [|discriminate].
  intros [= <-]. apply find_some in E. destruct E as (Hin & Hd).
  exists r. repeat split; [exact Hin | now apply has_date_true].
Qed.

Lemma select_id_None (t : table) (d : string) :
  select_id t d = None -> forall r, In r (rows t) -> work_date r <> d.
Proof.
  unfold select_id. destruct (find (has_date d) (rows t)) as [r|] eqn:E;
    [discriminate|].
  intros _ r Hr. apply has_date_false. exact (find_none _ _ E r Hr).
Qed.

(** The id of an upsert collides with no row of another date. *)
Lemma upsert_id_other_dates (t : table) (d : string) (h : Q) (m : string) :
  table_ok t ->
  exists i,
    rows (add_data t d h m)
    = insert_row (mkRow i d h m)
        (filter (fun r => negb ((id r =? i) || has_date d r)) (rows t))
    /\ sqlite_sequence (add_data t d h m) = Z.max (sqlite_sequence t) i
    /\ (forall r, In r (rows t) -> work_date r <> d -> id r <> i)
    /\ (select_id t d = None -> sqlite_sequence t < i)
    /\ (forall j, select_id t d = Some j -> i = j).
Proof.
  intros [Hids Hdates Hseq].
  destruct (add_data_rows t d h m) as (i & Hrows & Hs & Hi).
  exists i. split; [exact Hrows|]. split; [exact Hs|].
  destruct (select_id t d) as [j|] eqn:Hsel.
  - subst i. destruct (select_id_Some t d j Hsel) as (r0 & Hr0 & Hd0 & Hj0).
    repeat split; try discriminate; try congruence.
    intros r Hr Hd E. apply Hd. rewrite <- Hd0. f_equal.
    apply (rowid_determines_row (rows t)); congruence.
  - repeat split; try discriminate; try lia.
    intros r Hr _ E. rewrite Forall_forall in Hseq.
    specialize (Hseq (id r) (in_map id _ _ Hr)). simpl in Hseq. lia.
Qed.

Lemma filter_keeps_all {A : Type} (f : A -> bool) (l : list A) :
  (forall x, In x l -> f x = true) -> filter f l = l.
Proof.
  induction l as [|y t IH]; intros H; simpl; [reflexivity|].
  rewrite (H y) by now left. f_equal. apply IH. intros x Hx. apply H.
  now right.
Qed.

Lemma length_insert_row (x : Row) (l : list Row) :
  List.length (insert_row x l) = S (List.length l).
Proof.
  exact (Permutation_length (insert_row_perm x l)).
Qed.

Lemma length_filter_split {A : Type} (f : A -> bool) (l : list A) :
  (List.length (filter f l)
   + List.length (filter (fun x => negb (f x)) l))%nat = List.length l.
Proof.
  induction l as [|y t IH]; simpl; [reflexivity|].
  destruct (f y); simpl; lia.
Qed.

End TableMore.

Section UpsertMore.

(** X1.  [get_all_dates] returns exactly the dates that have a row, in
    strictly ascending text order; in a table that satisfies the schema
    it has one element per row, so DISTINCT removes nothing. *)
Theorem get_all_dates_exact (t : table) :
  (forall d, In d (get_all_dates t) <->
             exists r, In r (rows t) /\ work_date r = d)
  /\ StronglySorted (fun a b => String.ltb a b = true) (get_all_dates t)
  /\ (table_ok t ->
      List.length (get_all_dates t) = List.length (rows t)).
Proof.
  split; [intros d; apply get_all_dates_In|].
  split; [apply ordered_distinct_strict|].
  intros Hok. unfold get_all_dates, distinct.
  rewrite (Permutation_length (order_by_perm _ _)).
  rewrite nodup_fixed_point by exact (ok_dates t Hok).
  apply length_map.
Qed.

(** X2.  The schema constraints (ids strictly increasing in rowid order,
    one row per [work_date], no id above the AUTOINCREMENT counter) are
    kept by [add_data], by a successful [update_hours_for_date], and by
    every run of [main], whether the table existed before or not. *)
Theorem schema_constraints_kept (t : table) :
  table_ok t ->
  (forall d h m, table_ok (add_data t d h m))
  /\ (forall s h t', update_hours_for_date t s h = Ok t' -> table_ok t')
  /\ (forall env ss w t',
        database (main env ss w (Some t)) = Some t' -> table_ok t')
  /\ (forall env ss w t',
        database (main env ss w None) = Some t' -> table_ok t').
Proof.
  intros Hok. split; [|split; [|split]].
  - intros d h m. now apply add_data_ok.
  - intros s h t' Hup. now apply (update_hours_ok t t' s h).
  - intros env ss w t' Hrun.
    apply (main_invariant table_ok env ss w (Some t) t'); try assumption.
    + intros t0 [= <-]. exact Hok.
    + exact empty_table_ok.
    + intros t0 Ht0. now apply add_data_ok.
    + intros t0 d t1 Ht0. now apply update_hours_ok.
  - intros env ss w t' Hrun.
    apply (main_invariant table_ok env ss w None t'); try assumption.
    + discriminate.
    + exact empty_table_ok.
    + intros t0 Ht0. now apply add_data_ok.
    + intros t0 d t1 Ht0. now apply update_hours_ok.
Qed.

Lemma add_data_other_rows (t : table) (d : string) (h : Q) (m : string)
    (r : Row) :
  table_ok t -> work_date r <> d ->
  (In r (rows (add_data t d h m)) <-> In r (rows t)).
Proof.
  intros Hok Hd.
  destruct (upsert_id_other_dates t d h m Hok) as (i & Hrows & _ & Hfresh & _).
  rewrite Hrows, insert_row_In, kept_spec. split.
  - intros [-> | (Hin & _)]; [now simpl in Hd | exact Hin].
  - intros Hin. right. repeat split; auto.
Qed.

(** X3.  In a table that satisfies the schema, an upsert for one date
    leaves the rows of every other date as they were: the same rows are
    in the table before and after, and the lookup of any other date
    returns what it returned before. *)
Theorem upsert_leaves_other_dates (t : table) (d : string) (h : Q)
    (m : string) :
  table_ok t ->
  (forall r, work_date r <> d ->
             (In r (rows (add_data t d h m)) <-> In r (rows t)))
  /\ (forall d', d' <> d ->
        get_hours_for_date (add_data t d h m) d' = get_hours_for_date t d').
Proof.
  intros Hok. split; [intros r Hr; now apply add_data_other_rows|].
  intros d' Hd'. unfold get_hours_for_date.
  pose proof (add_data_ok t d h m Hok) as Hok'.
  destruct (find (has_date d') (rows t)) as [r|] eqn:E.
  - apply find_some in E. destruct E as (Hin & Hr).
    apply has_date_true in Hr. subst d'.
    assert (Hin' : In r (rows (add_data t d h m)))
      by now apply add_data_other_rows.
    now rewrite (find_unique _ _ (ok_dates _ Hok') Hin').
  - rewrite find_absent; [reflexivity|].
    intros r Hr. destruct (has_date d' r) eqn:Hr'; [|reflexivity].
    assert (Hd : work_date r = d') by now apply has_date_true.
    assert (Hin : In r (rows t)).
    { apply (add_data_other_rows t d h m r Hok); [congruence | exact Hr]. }
    pose proof (find_none _ _ E r Hin). congruence.
Qed.

(** X4.  In a table that satisfies the schema, an upsert for a date
    without a row adds exactly one row, and an upsert for a date that has
    a row leaves the number of rows as it was. *)
Theorem upsert_row_count (t : table) (d : string) (h : Q) (m : string) :
  table_ok t ->
  List.length (rows (add_data t d h m))
  = match select_id t d with
    | Some _ => List.length (rows t)
    | None => S (List.length (rows t))
    end.
Proof.
  intros Hok.
  destruct (upsert_id_other_dates t d h m Hok)
    as (i & Hrows & _ & Hfresh & Hnew & Hold).
  rewrite Hrows, length_insert_row.
  destruct (select_id t d) as [j|] eqn:Hsel.
  - rewrite <- (Hold j eq_refl) in Hsel.
    destruct (select_id_Some t d i Hsel) as (r0 & Hr0 & Hd0 & Hi0).
    pose proof (length_filter_split
                  (fun r => (id r =? i) || has_date d r) (rows t)) as Hlen.
    assert (Hone : filter (fun r => (id r =? i) || has_date d r) (rows t)
                   = [r0]).
    { rewrite <- (date_selects_one_row (rows t) r0 (ok_dates t Hok) Hr0).
      rewrite Hd0. apply filter_ext_in. intros r Hr.
      destruct (has_date d r) eqn:E; [now rewrite orb_true_r|].
      rewrite orb_false_r. apply Z.eqb_neq.
      apply Hfresh; [exact Hr | now apply has_date_false]. }
    rewrite Hone in Hlen. simpl in Hlen. lia.
  - rewrite filter_keeps_all; [reflexivity|].
    intros r Hr. apply negb_true_iff, orb_false_iff.
    pose proof (select_id_None t d Hsel r Hr) as Hd.
    split; [apply Z.eqb_neq; now apply Hfresh | now apply has_date_false].
Qed.

(** X5.  In a table that satisfies the schema, the row an upsert creates
    for a date without a row gets an id above the AUTOINCREMENT counter,
    hence above every id in the table, and the counter moves to that id;
    no upsert ever lowers the counter. *)
Theorem upsert_fresh_id (t : table) (d : string) (h : Q) (m : string) :
  table_ok t ->
  sqlite_sequence t <= sqlite_sequence (add_data t d h m)
  /\ (select_id t d = None ->
      exists i,
        In (mkRow i d h m) (rows (add_data t d h m))
        /\ sqlite_sequence t < i
        /\ (forall r, In r (rows t) -> id r < i)
        /\ sqlite_sequence (add_data t d h m) = i).
Proof.
  intros Hok.
  destruct (upsert_id_other_dates t d h m Hok)
    as (i & Hrows & Hs & _ & Hnew & _).
  split; [rewrite Hs; lia|].
  intros Hsel. specialize (Hnew Hsel). exists i. repeat split.
  - rewrite Hrows. apply insert_row_In. now left.
  - exact Hnew.
  - intros r Hr. pose proof (ok_seq t Hok) as Hseq.
    rewrite Forall_forall in Hseq.
    specialize (Hseq (id r) (in_map id _ _ Hr)). simpl in Hseq. lia.
  - rewrite Hs. lia.
Qed.

End UpsertMore.

(* ================================================================== *)
(** * More on the update of one date *)

Section UpdateMore.

Lemma find_update_other (l : list Row) (h : Q) (m s d' : string) :
  d' <> s ->
  find (has_date d')
    (map (fun r => if has_date s r then mkRow (id r) (work_date r) h m else r)
       l)
  = find (has_date d') l.
Proof.
  intros Hd. induction l as [|x t IH]; simpl; [reflexivity|].
  destruct (has_date s x) eqn:Es.
  - apply has_date_true in Es.
    assert (Ex : has_date d' x = false) by (apply has_date_false; congruence).
    unfold has_date at 1. simpl. fold (has_date d' x). rewrite Ex. exact IH.
  - destruct (has_date d' x); [reflexivity | exact IH].
Qed.

(** X6.  In a table that satisfies the schema, updating the hours of a
    stored row whose date text is a date succeeds; afterwards the lookup
    of that date returns the new hours, and the row is there with its id
    and date unchanged and its month name recomputed from the date. *)
Theorem update_then_lookup (t : table) (r : Row) (d : date) (h : Q) :
  table_ok t -> In r (rows t) -> strptime_Ymd (work_date r) = Ok d ->
  exists t',
    update_hours_for_date t (work_date r) h = Ok t'
    /\ get_hours_for_date t' (work_date r) = h
    /\ In (mkRow (id r) (work_date r) h (strftime_B d)) (rows t').
Proof.
  intros Hok Hr Hd.
  exists (update_where_date t h (strftime_B d) (work_date r)).
  assert (Hup : update_hours_for_date t (work_date r) h
                = Ok (update_where_date t h (strftime_B d) (work_date r))).
  { unfold update_hours_for_date. now rewrite Hd. }
  pose proof (update_hours_ok _ _ _ _ Hok Hup) as Hok'.
  assert (Hin : In (mkRow (id r) (work_date r) h (strftime_B d))
                  (rows (update_where_date t h (strftime_B d) (work_date r)))).
  { unfold update_where_date. simpl. apply in_map_iff. exists r.
    split; [|exact Hr].
    now rewrite (proj2 (has_date_true (work_date r) r) eq_refl). }
  split; [exact Hup|]. split; [|exact Hin].
  unfold get_hours_for_date.
  pose proof (find_unique _ _ (ok_dates _ Hok') Hin) as Hf.
  cbn [work_date] in Hf. now rewrite Hf.
Qed.

(** X7.  A successful update of the hours of one date changes no id, no
    date and not the AUTOINCREMENT counter, so the dates listed are the
    same as before, and the lookup of any other date returns what it
    returned before. *)
Theorem update_leaves_the_rest (t t' : table) (s : string) (h : Q) :
  update_hours_for_date t s h = Ok t' ->
  map id (rows t') = map id (rows t)
  /\ map work_date (rows t') = map work_date (rows t)
  /\ sqlite_sequence t' = sqlite_sequence t
  /\ get_all_dates t' = get_all_dates t
  /\ (forall d', d' <> s ->
        get_hours_for_date t' d' = get_hours_for_date t d').
Proof.
  intros Hup. apply update_hours_inv in Hup. destruct Hup as (d & _ & ->).
  split; [apply update_where_date_ids|].
  split; [apply update_where_date_dates|].
  split; [reflexivity|]. split.
  - unfold get_all_dates. now rewrite update_where_date_dates.
  - intros d' Hd'. unfold get_hours_for_date, update_where_date. simpl.
    now rewrite find_update_other.
Qed.

(** X8.  A text that [strptime] accepts stands for a date of the
    calendar, and two valid dates for which [strftime] writes the same
    text are the same date, so the UNIQUE column never merges two
    different days. *)
Theorem iso_text_identifies_date :
  (forall s d, strptime_Ymd s = Ok d -> valid_date d = true)
  /\ (forall d1 d2, valid_date d1 = true -> valid_date d2 = true ->
        strftime_Ymd d1 = strftime_Ymd d2 -> d1 = d2).
Proof.
  split.
  - intros s d. unfold strptime_Ymd.
    destruct (format_regex_match s) as [[[[y m] dd] rest]|]; [|discriminate].
    destruct (String.eqb rest EmptyString); [|discriminate].
    destruct (valid_date (mkdate y m dd)) eqn:E; [|discriminate].
    now intros [= <-].
  - intros d1 d2 H1 H2 E.
    apply read_strftime in H1, H2. rewrite E in H1. congruence.
Qed.

(** X9.  [strptime] also accepts a date written without the leading
    zeros, but no row written by the app carries such a text: in a table
    whose dates are all texts written by [strftime], an update addressed
    by a text that is a date but not the text [strftime] writes for it
    succeeds and changes nothing. *)
Theorem update_by_unpadded_text_noop (t : table) (s : string) (d : date)
    (h : Q) :
  iso_dates t -> strptime_Ymd s = Ok d -> s <> strftime_Ymd d ->
  update_hours_for_date t s h = Ok t.
Proof.
  intros Hiso Hs Hne. apply (update_missing_noop t s d h Hs).
  intros r Hr E. unfold iso_dates in Hiso. rewrite Forall_forall in Hiso.
  destruct (Hiso r Hr) as (d' & Hv & Hd').
  destruct (Z_lt_le_dec (year d') 1000) as [Hshort | Hlong].
  - apply strptime_strftime_short_year in Hv; [|exact Hshort].
    rewrite <- Hd', E, Hs in Hv. discriminate.
  - apply strptime_strftime in Hv; [|exact Hlong].
    rewrite <- Hd', E, Hs in Hv. injection Hv as ->. congruence.
Qed.

End UpdateMore.

(* ================================================================== *)
(** * From the year 1000 on the text order is the order of the calendar *)

Section IsoOrder.

Lemma ascii_compare_digits (a b : Z) :
  0 <= a <= 9 -> 0 <= b <= 9 ->
  Ascii.compare (digit_char a) (digit_char b) = (a ?= b).
Proof.
  intros Ha Hb. unfold Ascii.compare, digit_char.
  rewrite !N_ascii_embedding by lia.
  rewrite Z2N.inj_compare by lia. apply Z.add_compare_mono_l.
Qed.

Ltac by_digits :=
  try reflexivity; exfalso;
  Z.to_euclidean_division_equations; lia.

Lemma compare_two_digits (a b : Z) (r1 r2 : string) :
  0 <= a <= 99 -> 0 <= b <= 99 ->
  String.compare (pad2 a ++ r1) (pad2 b ++ r2)
  = match a ?= b with
    | Eq => String.compare r1 r2
    | c => c
    end.
Proof.
  intros Ha Hb. unfold pad2. cbn [String.append String.compare].
  rewrite !ascii_compare_digits
    by (Z.to_euclidean_division_equations; lia).
  destruct (Z.compare_spec (a / 10) (b / 10));
    destruct (Z.compare_spec (a mod 10) (b mod 10));
    destruct (Z.compare_spec a b); by_digits.
Qed.

Lemma compare_two_digits_end (a b : Z) :
  0 <= a <= 99 -> 0 <= b <= 99 ->
  String.compare (pad2 a) (pad2 b) = (a ?= b).
Proof.
  intros Ha Hb.
  change (pad2 a) with (pad2 a ++ EmptyString)%string.
  change (pad2 b) with (pad2 b ++ EmptyString)%string.
  rewrite compare_two_digits by assumption.
  now destruct (a ?= b).
Qed.

Lemma compare_four_digits (a b : Z) (r1 r2 : string) :
  0 <= a <= 9999 -> 0 <= b <= 9999 ->
  String.compare (pad4 a ++ r1) (pad4 b ++ r2)
  = match a ?= b with
    | Eq => String.compare r1 r2
    | c => c
    end.
Proof.
  intros Ha Hb. unfold pad4. cbn [String.append String.compare].
  rewrite !ascii_compare_digits
    by (Z.to_euclidean_division_equations; lia).
  rewrite compare_two_digits
    by (Z.to_euclidean_division_equations; lia).
  destruct (Z.compare_spec (a / 1000) (b / 1000));
    destruct (Z.compare_spec (a / 100 mod 10) (b / 100 mod 10));
    destruct (Z.compare_spec (a mod 100) (b mod 100));
    destruct (Z.compare_spec a b); by_digits.
Qed.

(** X10.  For valid dates from the year 1000 on, the BINARY comparison
    of the texts [strftime] writes is the comparison of the dates, so
    ORDER BY [work_date] lists such days in the order of the calendar.
    (Below the year 1000 the year is not padded and the text order is
    not the order of the calendar.) *)
Theorem iso_text_order_is_calendar_order (d1 d2 : date) :
  valid_date d1 = true -> valid_date d2 = true ->
  1000 <= year d1 -> 1000 <= year d2 ->
  String.compare (strftime_Ymd d1) (strftime_Ymd d2) = date_compare d1 d2
  /\ (String.leb (strftime_Ymd d1) (strftime_Ymd d2) = true
      <-> date_compare d1 d2 <> Gt).
Proof.
  intros H1 H2 Hk1 Hk2.
  destruct (valid_date_bounds d1 H1) as (Hy1 & Hm1 & Hd1).
  destruct (valid_date_bounds d2 H2) as (Hy2 & Hm2 & Hd2).
  assert (E : String.compare (strftime_Ymd d1) (strftime_Ymd d2)
              = date_compare d1 d2).
  { rewrite !strftime_iso_text by assumption.
    unfold iso_text, date_compare.
    rewrite compare_four_digits by lia.
    cbn [String.append String.compare]. rewrite ascii_compare_refl.
    rewrite compare_two_digits by lia.
    cbn [String.append String.compare]. rewrite ascii_compare_refl.
    rewrite compare_two_digits_end by lia. reflexivity. }
  split; [exact E|].
  unfold String.leb. rewrite E.
  destruct (date_compare d1 d2); split; congruence.
Qed.

End IsoOrder.

(* ================================================================== *)
(** * More on the runs of [main] *)

Section MainMore.

(** X11.  While the session is logged out, a run never touches the
    database and never gets past the login form: it ends in [st.stop()]
    or [st.rerun()], and the page is the start-up error, the login form,
    or the login form with the credentials error. *)
Theorem logged_out_run_shows_login_only (env : option string)
    (ss : option session_state) (w : widgets) (db : option table) :
  state_of ss = LoggedOut ->
  let r := main env ss w db in
  let form := [page_config; st_title_login; st_text_input "Username";
               st_text_input "Password"; st_button "Login"] in
  database r = db
  /\ (how r = Stopped \/ how r = Rerun)
  /\ (page r = [page_config;
                st_error "No password found in environment variable 'TIMESHEET_PASSWORD'."]
      \/ page r = form
      \/ page r = List.app form
                    [st_error "Invalid credentials. Please try again."]).
Proof.
  intros Hout. cbv zeta. unfold main.
  destruct (negb (truthy env)); [simpl; tauto|].
  rewrite (state_of_LoggedOut ss Hout). cbn [negb].
  destruct (login_pressed w); [|simpl; tauto].
  destruct (_ && _); simpl; tauto.
Qed.

(** X12.  There is no way back: a run that starts with a logged-in
    session leaves the session state exactly as it was, whatever the
    environment and the widgets say. *)
Theorem logged_in_session_is_kept (env : option string)
    (ss : option session_state) (w : widgets) (db : option table) :
  state_of ss <> LoggedOut -> session (main env ss w db) = ss.
Proof.
  intros Hin. unfold main.
  destruct (negb (truthy env)); [reflexivity|].
  destruct ss as [s|]; [|now elim Hin].
  assert (Hl : logged_in s = true).
  { unfold state_of in Hin. destruct (logged_in s); [reflexivity|].
    now elim Hin. }
  rewrite Hl. cbn [negb].
  destruct (selectbox _ (menu_index w)) as [c|]; [|reflexivity].
  destruct (String.eqb c "View Timesheet"); [reflexivity|].
  destruct (String.eqb c "Log Hours").
  { now destruct (log_hours (create_table db) w). }
  destruct (String.eqb c "Edit Hours"); [|reflexivity].
  destruct (negb (has_edit_access s)); [reflexivity|].
  now destruct (edit_hours (create_table db) w) as [out [t'|e]].
Qed.

Lemma selectbox_two (a b : string) (i : nat) (c : string) :
  selectbox [a; b] i = Some c -> c = a \/ c = b.
Proof.
  unfold selectbox. intros H. apply nth_error_In in H.
  destruct H as [H | [H | []]]; auto.
Qed.

(** X13.  A logged-in session without edit access is offered only "View
    Timesheet" and "Log Hours": its runs never update the hours of a
    date, so the database afterwards is the one before, the created
    table, or the created table with the logged hours, and the edit view
    is never on the page. *)
Theorem no_update_without_edit_access (env : option string)
    (s : session_state) (w : widgets) (db : option table) :
  logged_in s = true -> has_edit_access s = false ->
  let r := main env (Some s) w db in
  (database r = db
   \/ database r = Some (create_table db)
   \/ database r
      = Some (add_data (create_table db) (strftime_Ymd (input_date w))
                (hours_input w) (strftime_B (input_date w))))
  /\ ~ In (st_subheader "Edit Hours for a Date") (page r).
Proof.
  intros Hl Ha. cbv zeta. unfold main.
  destruct (negb (truthy env)).
  { split; [now left|]. simpl. intros [H | [H | []]]; discriminate. }
  rewrite Hl, Ha. cbn [negb].
  destruct (selectbox _ (menu_index w)) as [c|] eqn:Hsel.
  2:{ split; [now (right; left)|]. simpl.
      intros [H | [H | [H | []]]]; discriminate. }
  apply selectbox_two in Hsel. destruct Hsel as [-> | ->].
  - cbn [String.eqb Ascii.eqb Bool.eqb]. split; [now (right; left)|].
    cbn [List.app page]. unfold view_timesheet.
    destruct (List.length (get_months (create_table db)) =? 0)%nat.
    { simpl. intros [H | [H | [H | [H | [H | []]]]]]; discriminate. }
    destruct (selectbox _ (month_index w)) as [m|].
    2:{ simpl. intros [H | [H | [H | [H | [H | []]]]]]; discriminate. }
    destruct (truthy (Some m)).
    2:{ simpl. intros [H | [H | [H | [H | [H | []]]]]]; discriminate. }
    destruct (get_timesheet_by_month (create_table db) m); simpl.
    + intros [H | [H | [H | [H | [H | [H | []]]]]]]; discriminate.
    + intros [H | [H | [H | [H | [H | [H | [H | []]]]]]]]; discriminate.
  - cbn [String.eqb Ascii.eqb Bool.eqb]. unfold log_hours.
    destruct (log_pressed w); simpl.
    + split; [tauto|].
      intros [H | [H | [H | [H | [H | [H | [H | [H | []]]]]]]]];
        discriminate.
    + split; [tauto|].
      intros [H | [H | [H | [H | [H | [H | [H | []]]]]]]]; discriminate.
Qed.

End MainMore.

Section MainViews.

Lemma get_hours_nonneg (t : table) (d : string) :
  hours_nonneg t -> (0 <= get_hours_for_date t d)%Q.
Proof.
  intros Ht. unfold get_hours_for_date.
  destruct (find (has_date d) (rows t)) as [r|] eqn:E.
  - apply find_some in E. unfold hours_nonneg in Ht.
    rewrite Forall_forall in Ht. apply Ht. tauto.
  - apply Qle_refl.
Qed.

(** A run ends with an exception only in the edit view: when the hours
    stored for the date picked are negative, or when the update raises. *)
Lemma main_crash_cases (env : option string) (ss : option session_state)
    (w : widgets) (db : option table) (e : exn) :
  how (main env ss w db) = Crashed e ->
  exists d,
    In d (get_all_dates (create_table db))
    /\ (Qle_bool 0 (get_hours_for_date (create_table db) d) = false
        \/ update_hours_for_date (create_table db) d (new_hours_input w)
           = Raise e).
Proof.
  unfold main.
  destruct (negb (truthy env)); [discriminate|].
  destruct (negb (logged_in _)).
  { destruct (login_pressed w); [|discriminate].
    destruct (_ && _); discriminate. }
  destruct (selectbox _ (menu_index w)) as [c|]; [|discriminate].
  destruct (String.eqb c "View Timesheet"); [discriminate|].
  destruct (String.eqb c "Log Hours").
  { destruct (log_hours (create_table db) w). discriminate. }
  destruct (String.eqb c "Edit Hours"); [|discriminate].
  destruct (negb (has_edit_access _)); [discriminate|].
  unfold edit_hours.
  destruct (get_all_dates (create_table db)) as [|d0 ds] eqn:Hdates;
    [discriminate|].
  destruct (selectbox (d0 :: ds) (date_index w)) as [d|] eqn:Hsel;
    [|discriminate].
  assert (Hin : In d (d0 :: ds))
    by (unfold selectbox in Hsel; now apply nth_error_In in Hsel).
  destruct (truthy (Some d)); [|discriminate].
  destruct (Qle_bool 0 (get_hours_for_date (create_table db) d)) eqn:Hq;
    cbn [negb].
  2:{ intros _. exists d. split; [exact Hin | now left]. }
  destruct (update_pressed w); [|discriminate].
  destruct (update_hours_for_date _ d _) as [t'|e'] eqn:Hup;
    [discriminate|].
  simpl. intros [= <-]. exists d. split; [exact Hin | now right].
Qed.

(** X14.  When no stored hours are negative and every [work_date] in the
    table is a text [strptime] accepts (as in the tables the app
    builds), or there is no table yet, no run of [main] ends with an
    exception: the edit view only updates dates it read from the table.
    Negative stored hours make the edit view's number input raise. *)
Theorem main_never_crashes (env : option string)
    (ss : option session_state) (w : widgets) (db : option table)
    (e : exn) :
  (forall t, db = Some t -> hours_nonneg t) ->
  (forall t r, db = Some t -> In r (rows t) ->
               exists d, strptime_Ymd (work_date r) = Ok d) ->
  how (main env ss w db) <> Crashed e.
Proof.
  intros Hh Hdb Hcrash.
  destruct (main_crash_cases env ss w db e Hcrash) as (d & Hin & Hbad).
  destruct Hbad as [Hneg | Hup].
  - assert (Hnn : hours_nonneg (create_table db)).
    { destruct db as [t|]; simpl; [now apply Hh | constructor]. }
    apply (get_hours_nonneg _ d) in Hnn. apply Qle_bool_iff in Hnn.
    congruence.
  - apply get_all_dates_In in Hin. destruct Hin as (r & Hr & <-).
    destruct db as [t|]; simpl in Hr; [|contradiction].
    destruct (Hdb t r eq_refl Hr) as (d & Hd).
    unfold update_hours_for_date in Hup. rewrite Hd in Hup. discriminate.
Qed.

(** X15.  Every month that [get_months] lists has at least one entry in
    [get_timesheet_by_month], so the view never reports "No entries
    found" for a month it offered. *)
Theorem listed_month_has_entries (t : table) (w : widgets) (m : string) :
  (In m (get_months t) -> get_timesheet_by_month t m <> [])
  /\ ~ In (st_info ("No entries found for the month: " ++ m)%string)
         (view_timesheet t w).
Proof.
  assert (Hne : forall m0, In m0 (get_months t) ->
                           get_timesheet_by_month t m0 <> []).
  { intros m0 Hm0 E. unfold get_months in Hm0.
    rewrite ordered_distinct_In, in_map_iff in Hm0.
    destruct Hm0 as (r & Hmr & Hr).
    unfold get_timesheet_by_month in E. apply map_eq_nil in E.
    apply order_by_nil_iff in E.
    assert (Hin : In r (filter (fun r0 => String.eqb (month_name r0) m0)
                          (rows t))).
    { apply filter_In. split; [exact Hr | now apply String.eqb_eq]. }
    rewrite E in Hin. contradiction. }
  split; [apply Hne|].
  unfold view_timesheet.
  destruct (List.length (get_months t) =? 0)%nat.
  { simpl. intros [H | []]. discriminate. }
  destruct (selectbox (get_months t) (month_index w)) as [m0|] eqn:Hsel.
  2:{ simpl. intros [H | []]. discriminate. }
  destruct (truthy (Some m0)).
  2:{ simpl. intros [H | []]. discriminate. }
  unfold selectbox in Hsel. apply nth_error_In in Hsel.
  specialize (Hne m0 Hsel).
  destruct (get_timesheet_by_month t m0); [contradiction|].
  simpl. intros [H | [H | [H | []]]]; discriminate.
Qed.

(** X16.  In a logged-in run that picks "Log Hours" and presses the
    button, the hours entered are stored for the date picked: afterwards
    the lookup of the text [strftime] writes for the date returns them,
    the date's month is
    among the months listed, and the month's listing has the entry. *)
Theorem log_hours_then_view (p : string) (s : session_state) (w : widgets)
    (db : option table) :
  p <> EmptyString -> logged_in s = true ->
  menu_index w = 1%nat -> log_pressed w = true ->
  exists t',
    database (main (Some p) (Some s) w db) = Some t'
    /\ get_hours_for_date t' (strftime_Ymd (input_date w)) = hours_input w
    /\ In (strftime_B (input_date w)) (get_months t')
    /\ In (strftime_Ymd (input_date w), hours_input w,
           strftime_B (input_date w))
         (get_timesheet_by_month t' (strftime_B (input_date w))).
Proof.
  intros Hp Hl Hmenu Hlog.
  set (d := strftime_Ymd (input_date w)).
  set (m := strftime_B (input_date w)).
  exists (add_data (create_table db) d (hours_input w) m).
  assert (Hrow : exists i,
             In (mkRow i d (hours_input w) m)
               (rows (add_data (create_table db) d (hours_input w) m))).
  { destruct (add_data_find (create_table db) d (hours_input w) m)
      as (i & Hf & _). exists i. apply find_some in Hf. tauto. }
  destruct Hrow as (i & Hrow).
  split; [|split; [|split]].
  - unfold main. rewrite (truthy_Some p Hp), Hl, Hmenu. cbn [negb].
    destruct (has_edit_access s); cbn; unfold log_hours; now rewrite Hlog.
  - apply get_hours_add_data.
  - unfold get_months. rewrite ordered_distinct_In, in_map_iff.
    now exists (mkRow i d (hours_input w) m).
  - unfold get_timesheet_by_month. apply in_map_iff.
    exists (mkRow i d (hours_input w) m). split; [reflexivity|].
    apply order_by_In, filter_In. split; [exact Hrow|].
    now apply String.eqb_eq.
Qed.

End MainViews.

(* ================================================================== *)
(** * The earlier version: logging never replaced *)

Section OldApp.

Lemma count_insert_row (f : Row -> bool) (x : Row) (l : list Row) :
  f x = true ->
  List.length (filter f (insert_row x l)) = S (List.length (filter f l)).
Proof.
  intros Hx. induction l as [|y t IH]; simpl.
  - now rewrite Hx.
  - destruct (id x <? id y); simpl.
    + now rewrite Hx.
    + destruct (f y); simpl; now rewrite IH.
Qed.

(** X17.  The earlier [add_data] keeps every row that was there and adds
    one row for the date, with an id above the AUTOINCREMENT counter: a
    date logged again has one row more, not a replaced one. *)
Theorem old_add_data_duplicates (t : table) (d : string) (h : Q)
    (m : string) :
  (forall r, In r (rows t) -> In r (rows (old_add_data t d h m)))
  /\ List.length (rows_of_date (old_add_data t d h m) d)
     = S (List.length (rows_of_date t d))
  /\ exists i, sqlite_sequence t < i
               /\ In (mkRow i d h m) (rows (old_add_data t d h m)).
Proof.
  unfold old_add_data, rows_of_date. simpl. repeat split.
  - intros r Hr. apply insert_row_In. now right.
  - apply count_insert_row. now apply has_date_true.
  - eexists. split; [|apply insert_row_In; left; reflexivity]. lia.
Qed.

End OldApp.

(* ================================================================== *)
(** * The app only writes the texts of valid dates *)

Section IsoDates.

Lemma add_data_iso_dates (t : table) (d : date) (h : Q) (m : string) :
  iso_dates t -> valid_date d = true ->
  iso_dates (add_data t (strftime_Ymd d) h m).
Proof.
  unfold iso_dates. rewrite !Forall_forall. intros Ht Hv r Hr.
  destruct (add_data_In t _ h m r Hr) as [(Hd & _) | (Hin & _)].
  - now exists d.
  - now apply Ht.
Qed.

Lemma update_iso_dates (t t' : table) (s : string) (h : Q) :
  iso_dates t -> update_hours_for_date t s h = Ok t' -> iso_dates t'.
Proof.
  intros Ht Hup. apply update_hours_inv in Hup.
  destruct Hup as (d & _ & ->).
  unfold iso_dates, update_where_date in *. simpl.
  rewrite Forall_forall in *. intros r Hr.
  apply in_map_iff in Hr. destruct Hr as (r0 & <- & Hr0).
  destruct (has_date s r0); [|now apply Ht]. exact (Ht r0 Hr0).
Qed.

(** X18.  Every [work_date] the app stores is the text [strftime]
    writes for a valid date: if that holds of the table (or there is no
    table yet) and the date picker returns a valid date, it holds of the
    table after any run of [main]. *)
Theorem main_writes_iso_dates (env : option string)
    (ss : option session_state) (w : widgets) (db : option table)
    (t' : table) :
  (forall t, db = Some t -> iso_dates t) ->
  valid_date (input_date w) = true ->
  database (main env ss w db) = Some t' -> iso_dates t'.
Proof.
  intros Hdb Hv Hrun.
  apply (main_invariant iso_dates env ss w db t'); try assumption.
  - constructor.
  - intros t Ht. now apply add_data_iso_dates.
  - intros t d t1 Ht. now apply update_iso_dates.
Qed.

End IsoDates.

(* ================================================================== *)
(** * The further theorems at the sample data *)

Section MoreInstances.

Lemma two_days_iso : iso_dates two_days.
Proof.
  apply Forall_cons; [exists jan5; split; reflexivity|].
  apply Forall_cons; [exists feb10; split; reflexivity|].
  constructor.
Defined.

Lemma get_all_dates_exact_witness :
  table_ok two_days
  /\ List.length (get_all_dates two_days) = List.length (rows two_days).
Proof.
  split; [exact two_days_ok|].
  exact (proj2 (proj2 (get_all_dates_exact two_days)) two_days_ok).
Defined.

Lemma schema_constraints_kept_witness :
  table_ok two_days
  /\ table_ok (add_data two_days "2024-03-01" 4 "March").
Proof.
  split; [exact two_days_ok|].
  exact (proj1 (schema_constraints_kept two_days two_days_ok)
           "2024-03-01"%string 4%Q "March"%string).
Defined.

Lemma upsert_leaves_other_dates_witness :
  table_ok two_days
  /\ "2024-01-05"%string <> "2024-02-10"%string
  /\ get_hours_for_date (add_data two_days "2024-02-10" 5 "February")
       "2024-01-05"
     = get_hours_for_date two_days "2024-01-05".
Proof.
  assert (Hne : "2024-01-05"%string <> "2024-02-10"%string) by discriminate.
  split; [exact two_days_ok|]. split; [exact Hne|].
  exact (proj2 (upsert_leaves_other_dates two_days "2024-02-10" 5 "February"
                  two_days_ok) "2024-01-05"%string Hne).
Defined.

Lemma upsert_row_count_witness :
  table_ok two_days
  /\ List.length (rows (add_data two_days "2024-03-01" 4 "March")) = 3%nat
  /\ List.length (rows (add_data two_days "2024-02-10" 4 "February")) = 2%nat.
Proof.
  split; [exact two_days_ok|]. split.
  - exact (upsert_row_count two_days "2024-03-01" 4 "March" two_days_ok).
  - exact (upsert_row_count two_days "2024-02-10" 4 "February" two_days_ok).
Defined.

Lemma upsert_fresh_id_witness :
  table_ok two_days
  /\ select_id two_days "2024-03-01" = None
  /\ exists i,
       In (mkRow i "2024-03-01" 4 "March")
         (rows (add_data two_days "2024-03-01" 4 "March"))
       /\ sqlite_sequence two_days < i
       /\ (forall r, In r (rows two_days) -> id r < i)
       /\ sqlite_sequence (add_data two_days "2024-03-01" 4 "March") = i.
Proof.
  split; [exact two_days_ok|]. split; [reflexivity|].
  exact (proj2 (upsert_fresh_id two_days "2024-03-01" 4 "March" two_days_ok)
           eq_refl).
Defined.

Lemma update_then_lookup_witness :
  table_ok two_days
  /\ In (mkRow 2 "2024-02-10" 3 "February") (rows two_days)
  /\ strptime_Ymd "2024-02-10" = Ok feb10
  /\ exists t',
       update_hours_for_date two_days "2024-02-10" 5 = Ok t'
       /\ get_hours_for_date t' "2024-02-10" = 5%Q
       /\ In (mkRow 2 "2024-02-10" 5 "February") (rows t').
Proof.
  assert (Hin : In (mkRow 2 "2024-02-10" 3 "February") (rows two_days))
    by (right; left; reflexivity).
  split; [exact two_days_ok|]. split; [exact Hin|]. split; [reflexivity|].
  exact (update_then_lookup two_days (mkRow 2 "2024-02-10" 3 "February")
           feb10 5 two_days_ok Hin eq_refl).
Defined.

Lemma update_leaves_the_rest_witness :
  update_hours_for_date two_days "2024-02-10" 5
  = Ok (mkTable [mkRow 1 "2024-01-05" 8 "January";
                 mkRow 2 "2024-02-10" 5 "February"] 2)
  /\ get_all_dates (mkTable [mkRow 1 "2024-01-05" 8 "January";
                             mkRow 2 "2024-02-10" 5 "February"] 2)
     = get_all_dates two_days.
Proof.
  split; [reflexivity|].
  exact (proj1 (proj2 (proj2 (proj2
           (update_leaves_the_rest two_days _ "2024-02-10" 5 eq_refl))))).
Defined.

Lemma iso_text_identifies_date_witness :
  strptime_Ymd "2024-1-5" = Ok jan5 /\ valid_date jan5 = true.
Proof.
  split; [reflexivity|].
  exact (proj1 iso_text_identifies_date "2024-1-5"%string jan5 eq_refl).
Defined.

Lemma update_by_unpadded_text_noop_witness :
  iso_dates two_days
  /\ strptime_Ymd "2024-1-5" = Ok jan5
  /\ "2024-1-5"%string <> strftime_Ymd jan5
  /\ update_hours_for_date two_days "2024-1-5" 5 = Ok two_days.
Proof.
  assert (Hne : "2024-1-5"%string <> strftime_Ymd jan5)
    by (vm_compute; discriminate).
  split; [exact two_days_iso|]. split; [reflexivity|]. split; [exact Hne|].
  exact (update_by_unpadded_text_noop two_days "2024-1-5" jan5 5
           two_days_iso eq_refl Hne).
Defined.

Lemma iso_text_order_is_calendar_order_witness :
  valid_date jan5 = true /\ valid_date feb10 = true
  /\ 1000 <= year jan5 /\ 1000 <= year feb10
  /\ String.compare (strftime_Ymd jan5) (strftime_Ymd feb10)
     = date_compare jan5 feb10.
Proof.
  assert (H1 : 1000 <= year jan5) by (simpl; lia).
  assert (H2 : 1000 <= year feb10) by (simpl; lia).
  split; [reflexivity|]. split; [reflexivity|].
  split; [exact H1|]. split; [exact H2|].
  exact (proj1 (iso_text_order_is_calendar_order jan5 feb10
                  eq_refl eq_refl H1 H2)).
Defined.

Lemma logged_out_run_shows_login_only_witness :
  state_of None = LoggedOut
  /\ database (main (Some "s3cret"%string) None log_jan5 (Some two_days))
     = Some two_days.
Proof.
  split; [reflexivity|].
  exact (proj1 (logged_out_run_shows_login_only (Some "s3cret"%string) None
                  log_jan5 (Some two_days) eq_refl)).
Defined.

Lemma logged_in_session_is_kept_witness :
  state_of (Some (mkSession true (Some "raisediversity"%string) true))
  <> LoggedOut
  /\ session (main None
                (Some (mkSession true (Some "raisediversity"%string) true))
                log_jan5 None)
     = Some (mkSession true (Some "raisediversity"%string) true).
Proof.
  assert (Hin : state_of (Some (mkSession true
                                  (Some "raisediversity"%string) true))
                <> LoggedOut) by discriminate.
  split; [exact Hin|].
  exact (logged_in_session_is_kept None _ log_jan5 None Hin).
Defined.

Lemma no_update_without_edit_access_witness :
  logged_in (mkSession true (Some "raisediversity"%string) false) = true
  /\ has_edit_access (mkSession true (Some "raisediversity"%string) false)
     = false
  /\ ~ In (st_subheader "Edit Hours for a Date")
         (page (main (Some "s3cret"%string)
                  (Some (mkSession true (Some "raisediversity"%string) false))
                  (mkWidgets "" "" false 2 0 jan5 0 false 0 5 true)
                  (Some two_days))).
Proof.
  split; [reflexivity|]. split; [reflexivity|].
  exact (proj2 (no_update_without_edit_access (Some "s3cret"%string)
                  (mkSession true (Some "raisediversity"%string) false)
                  (mkWidgets "" "" false 2 0 jan5 0 false 0 5 true)
                  (Some two_days) eq_refl eq_refl)).
Defined.

Lemma main_never_crashes_witness :
  (forall t, Some two_days = Some t -> hours_nonneg t)
  /\ (forall t r, Some two_days = Some t -> In r (rows t) ->
                  exists d, strptime_Ymd (work_date r) = Ok d)
  /\ how (main (Some "s3cret"%string)
            (Some (mkSession true (Some "raisediversity"%string) true))
            (mkWidgets "" "" false 2 0 jan5 0 false 1 5 true)
            (Some two_days))
     <> Crashed ValueError.
Proof.
  assert (Hh : forall t, Some two_days = Some t -> hours_nonneg t).
  { intros t [= <-]. exact two_days_hours_nonneg. }
  assert (H : forall t r, Some two_days = Some t -> In r (rows t) ->
                          exists d, strptime_Ymd (work_date r) = Ok d).
  { intros t r [= <-] Hr.
    destruct (two_days_rows r Hr) as [-> | ->];
      [exists jan5 | exists feb10]; reflexivity. }
  split; [exact Hh|]. split; [exact H|].
  exact (main_never_crashes _ _ _ (Some two_days) ValueError Hh H).
Defined.

Lemma listed_month_has_entries_witness :
  In "January"%string (get_months two_days)
  /\ get_timesheet_by_month two_days "January" <> [].
Proof.
  assert (H : In "January"%string (get_months two_days))
    by (right; left; reflexivity).
  split; [exact H|].
  exact (proj1 (listed_month_has_entries two_days log_jan5 "January") H).
Defined.

Lemma log_hours_then_view_witness :
  "s3cret"%string <> EmptyString
  /\ exists t',
       database (main (Some "s3cret"%string)
                   (Some (mkSession true (Some "raisediversity"%string) true))
                   log_jan5 None) = Some t'
       /\ get_hours_for_date t' (strftime_Ymd jan5) = 8%Q
       /\ In (strftime_B jan5) (get_months t')
       /\ In (strftime_Ymd jan5, 8%Q, strftime_B jan5)
            (get_timesheet_by_month t' (strftime_B jan5)).
Proof.
  assert (Hp : "s3cret"%string <> EmptyString) by discriminate.
  split; [exact Hp|].
  exact (log_hours_then_view "s3cret"
           (mkSession true (Some "raisediversity"%string) true)
           log_jan5 None Hp eq_refl eq_refl eq_refl).
Defined.

Lemma main_writes_iso_dates_witness :
  valid_date (input_date log_jan5) = true
  /\ iso_dates (mkTable [mkRow 1 "2024-01-05" 8 "January"] 1).
Proof.
  split; [reflexivity|].
  refine (main_writes_iso_dates (Some "s3cret"%string)
            (Some (mkSession true (Some "raisediversity"%string) true))
            log_jan5 None _ _ eq_refl eq_refl).
  intros t H. discriminate H.
Defined.

End MoreInstances.
